(** * Pinterest Integrator — material library view controller (app.js)

    A shallow embedding of the catalog state manager of [app.js]: the
    [state] object, the page elements it writes to, the loader
    ([fetchLibrary]), the filter-then-search pipeline ([applyFilters]), the
    filter bar ([generateFilterTags]), the apply action and the bridge
    functions ([refreshLibrary], [updateMaterial], [showMessage]).

    JavaScript values that reach the controller come out of [JSON.parse] or
    [response.json()]; they are embedded as the inductive [value].  A
    statement that throws is embedded in the error monad [res]; a function
    that also writes to [state] or to the page runs in [M], where the writes
    made before a throw stay in place, as they do in JavaScript. *)

From Stdlib Require Import List String Ascii Bool Arith ZArith Lia SpecFloat.
Import ListNotations.
Open Scope string_scope.
Open Scope list_scope.

(** ** JavaScript values *)

Set Warnings "-register-all".

(** A number is the IEEE double it denotes ([spec_float] carries sign,
    mantissa and exponent).  An object lists its own properties, one entry
    per name, as [JSON.parse] leaves them. *)
Inductive value : Type :=
| VUndefined
| VNull
| VBool (b : bool)
| VNumber (x : spec_float)
| VString (s : string)
| VArray (items : list value)
| VObject (props : list (string * value)).

Inductive exn : Type :=
| TypeError
| SyntaxError
| NetworkError
| LoadError (* [new Error('Gagal memuat library')] *).

Inductive res (A : Type) : Type :=
| Ok (a : A)
| Throw (e : exn).
Arguments Ok {A} a.
Arguments Throw {A} e.

Definition rbind {A B} (r : res A) (k : A -> res B) : res B :=
  match r with
  | Ok a => k a
  | Throw e => Throw e
  end.

Declare Scope res_scope.
Delimit Scope res_scope with res.
Notation "'let?' x ':=' r 'in' k" := (rbind r (fun x => k))
  (at level 10, x name, r at level 100, k at level 200) : res_scope.
Open Scope res_scope.

Definition throws {A} (r : res A) : bool :=
  match r with Ok _ => false | Throw _ => true end.

(** ** Strings *)

Module Str.

Definition is_upper (c : ascii) : bool :=
  let n := nat_of_ascii c in ((65 <=? n) && (n <=? 90))%nat.

Definition is_lower (c : ascii) : bool :=
  let n := nat_of_ascii c in ((97 <=? n) && (n <=? 122))%nat.

Definition lower_char (c : ascii) : ascii :=
  if is_upper c then ascii_of_nat (nat_of_ascii c + 32) else c.

Definition upper_char (c : ascii) : ascii :=
  if is_lower c then ascii_of_nat (nat_of_ascii c - 32) else c.

(** [s.toLowerCase()] and [s.toUpperCase()], on the letters A-Z and a-z;
    every other character is carried unchanged. *)
Fixpoint toLowerCase (s : string) : string :=
  match s with
  | EmptyString => EmptyString
  | String c s' => String (lower_char c) (toLowerCase s')
  end.

Fixpoint toUpperCase (s : string) : string :=
  match s with
  | EmptyString => EmptyString
  | String c s' => String (upper_char c) (toUpperCase s')
  end.

(** White space removed by [trim]: TAB, LF, VT, FF, CR and SPACE. *)
Definition is_space (c : ascii) : bool :=
  let n := nat_of_ascii c in (((9 <=? n) && (n <=? 13)) || (n =? 32))%nat.

Fixpoint trimStart (s : string) : string :=
  match s with
  | EmptyString => EmptyString
  | String c s' => if is_space c then trimStart s' else s
  end.

Fixpoint trimEnd (s : string) : string :=
  match s with
  | EmptyString => EmptyString
  | String c s' =>
      let r := trimEnd s' in
      if is_space c && (r =? "") then EmptyString else String c r
  end.

(** [s.trim()] *)
Definition trim (s : string) : string := trimEnd (trimStart s).

(** [s.includes(q)]: [q] occurs in [s] as a substring. *)
Fixpoint includes (q s : string) : bool :=
  prefix q s ||
  match s with
  | EmptyString => false
  | String _ s' => includes q s'
  end.

(** [s.charAt(0).toUpperCase() + s.slice(1)] *)
Definition capitalizeFirst (s : string) : string :=
  match s with
  | EmptyString => EmptyString
  | String c s' => String (upper_char c) s'
  end.

(** A string is truthy when it is not empty. *)
Definition nonempty (s : string) : bool := negb (s =? "").

(** [[...s]]: the characters of a string, one string each. *)
Fixpoint chars (s : string) : list string :=
  match s with
  | EmptyString => []
  | String c s' => String c EmptyString :: chars s'
  end.

End Str.

(** ** Operations on values *)

(** Truthiness, as [||], [!] and [if] test it. *)
Definition truthy (v : value) : bool :=
  match v with
  | VUndefined | VNull => false
  | VBool b => b
  | VNumber x =>
      match x with
      | S754_zero _ | S754_nan => false
      | _ => true
      end
  | VString s => Str.nonempty s
  | VArray _ | VObject _ => true
  end.

Fixpoint lookup (k : string) (props : list (string * value)) : value :=
  match props with
  | [] => VUndefined
  | (k', v) :: props' => if k' =? k then v else lookup k props'
  end.

Definition has_own (k : string) (props : list (string * value)) : bool :=
  existsb (fun kv => fst kv =? k) props.

(** [v.k] for the property names this program reads ([id], [tags], [title],
    [description], [board], [image_url], [source_url], [materials],
    [last_sync]): none of them is defined on a built-in prototype, so the
    read yields an own property of an object, [undefined] on any other
    value, and throws on [null] and [undefined]. *)
Definition get (v : value) (k : string) : res value :=
  match v with
  | VUndefined | VNull => Throw TypeError
  | VObject props => Ok (lookup k props)
  | _ => Ok VUndefined
  end.

(** [a === b].  Two arrays or objects are equal only when they are the same
    reference; every comparison of this program has a string or a value of
    a different [JSON.parse] call on one side, so they never are. *)
Definition strict_equals (a b : value) : bool :=
  match a, b with
  | VUndefined, VUndefined => true
  | VNull, VNull => true
  | VBool x, VBool y => Bool.eqb x y
  | VNumber x, VNumber y => SFeqb x y
  | VString x, VString y => x =? y
  | _, _ => false
  end.

(** Whether the conversion of a value to a string (in a template literal)
    throws: it does on an object whose own [toString] property shadows
    [Object.prototype.toString] (a parsed property is never callable), and
    on an array that holds such an object. *)
Fixpoint toString_throws (v : value) : bool :=
  match v with
  | VObject props => has_own "toString" props
  | VArray items => existsb toString_throws items
  | _ => false
  end.

(** [`${v}`] and [new Date(v)] convert [v] to a primitive; the value is
    kept as it is, only whether the conversion throws matters. *)
Definition interpolate (v : value) : res value :=
  if toString_throws v then Throw TypeError else Ok v.

(** [[...v]] *)
Definition spread (v : value) : res (list value) :=
  match v with
  | VArray items => Ok items
  | VString s => Ok (map VString (Str.chars s))
  | _ => Throw TypeError
  end.

(** Array methods with a callback that may throw. *)
Fixpoint filterM {A} (p : A -> res bool) (l : list A) : res (list A) :=
  match l with
  | [] => Ok []
  | x :: l' =>
      let? b := p x in
      let? r := filterM p l' in
      Ok (if b then x :: r else r)
  end.

Fixpoint someM {A} (p : A -> res bool) (l : list A) : res bool :=
  match l with
  | [] => Ok false
  | x :: l' =>
      let? b := p x in
      if b then Ok true else someM p l'
  end.

Fixpoint mapM {A B} (f : A -> res B) (l : list A) : res (list B) :=
  match l with
  | [] => Ok []
  | x :: l' =>
      let? y := f x in
      let? r := mapM f l' in
      Ok (y :: r)
  end.

(** [l.find(p)] *)
Fixpoint findM {A} (p : A -> res bool) (l : list A) : res (option A) :=
  match l with
  | [] => Ok None
  | x :: l' =>
      let? b := p x in
      if b then Ok (Some x) else findM p l'
  end.

(** [l.findIndex(p)], [-1] when no element satisfies [p]. *)
Fixpoint findIndexFrom {A} (p : A -> res bool) (i : Z) (l : list A) : res Z :=
  match l with
  | [] => Ok (-1)%Z
  | x :: l' =>
      let? b := p x in
      if b then Ok i else findIndexFrom p (i + 1)%Z l'
  end.

Definition findIndex {A} (p : A -> res bool) (l : list A) : res Z :=
  findIndexFrom p 0%Z l.

(** [l[i] = x] for an index inside the array. *)
Fixpoint assign {A} (i : nat) (x : A) (l : list A) : list A :=
  match l, i with
  | [], _ => []
  | _ :: l', O => x :: l'
  | y :: l', S i' => y :: assign i' x l'
  end.

(** ** The state object and the page *)

(** [let state = { materials, filteredMaterials, activeFilter, searchQuery,
    isLoading }].  [materials] is whatever the loader stored (an array for a
    well-formed catalog); [filteredMaterials] is always a fresh array. *)
Record State : Type := mkState {
  materials : value;
  filteredMaterials : list value;
  activeFilter : string;
  searchQuery : string;
  isLoading : bool
}.

(** The markup [createMaterialCard] returns: its template with the
    interpolated values, in the order of the template, with the first three
    tags only.  The values are interpolated as they are, unescaped. *)
Record Card : Type := mkCard {
  card_id : value;
  card_image : value;
  card_title : value;
  card_description : value;
  card_tags : list value;
  card_board : value
}.

(** The markup assigned to [innerHTML] of the display region
    [#materialsGrid]; [GridCards] is the card markups joined in order, the
    text the browser then parses. *)
Inductive GridContent : Type :=
| GridMarkup                      (* as the page was authored *)
| GridEmptyState                  (* "Tidak ada material ditemukan" *)
| GridCards (cards : list Card)
| GridError (message : string)    (* "Oops! Terjadi Kesalahan" + message *).

(** [style.display] of [#loadingState]. *)
Inductive Display : Type :=
| DisplayMarkup
| DisplayFlex
| DisplayNone.

(** A toggle control of the filter bar (an element of class [filter-tag]
    in [#filtersContainer]); its click listener calls [setActiveFilter] with
    [data_filter]. *)
Record FilterButton : Type := mkButton {
  data_filter : string;
  label : string;
  active : bool
}.

(** The text of a notification: a literal, or one of the two templates with
    the values interpolated into it. *)
Inductive Message : Type :=
| Text (s : string)
| MaterialReady (title : value)            (* Material "<title>" siap diterapkan! *)
| MaterialFrom (title board : value)       (* <title> - dari board "<board>" *).

Record Toast : Type := mkToast {
  toast_type : string;
  toast_message : Message
}.

Inductive LogEntry : Type :=
| LogError (what : string) (e : exn)       (* console.error(what, e) *)
| LogInfo (what : string) (v : value)      (* console.log(what, v) *).

(** The elements of the page the controller writes to, the console, and the
    calls made to the host.  [loadingInGrid] is a fact of the authored
    markup ([index.html], which is not part of the sources): whether
    [#loadingState] lies inside [#materialsGrid].  No function reads or
    writes it. *)
Record Page : Type := mkPage {
  loadingInGrid : bool;
  materialsGrid : GridContent;
  materialCount : option nat;
  syncTime : option value;
  loadingDisplay : Display;
  filtersContainer : list FilterButton;
  searchInput : string;
  toastContainer : list Toast;
  console : list LogEntry;
  hostCalls : list value
}.

Record World : Type := mkWorld {
  state : State;
  page : Page;
  sketchup : bool   (* [typeof sketchup !== 'undefined'] *)
}.

(** Field updates. *)
Definition set_materials (v : value) (s : State) : State :=
  mkState v (filteredMaterials s) (activeFilter s) (searchQuery s) (isLoading s).
Definition set_filteredMaterials (l : list value) (s : State) : State :=
  mkState (materials s) l (activeFilter s) (searchQuery s) (isLoading s).
Definition set_activeFilter (f : string) (s : State) : State :=
  mkState (materials s) (filteredMaterials s) f (searchQuery s) (isLoading s).
Definition set_searchQuery (q : string) (s : State) : State :=
  mkState (materials s) (filteredMaterials s) (activeFilter s) q (isLoading s).
Definition set_isLoading (b : bool) (s : State) : State :=
  mkState (materials s) (filteredMaterials s) (activeFilter s) (searchQuery s) b.

Definition set_materialsGrid (g : GridContent) (p : Page) : Page :=
  mkPage (loadingInGrid p) g (materialCount p) (syncTime p) (loadingDisplay p)
         (filtersContainer p) (searchInput p) (toastContainer p) (console p)
         (hostCalls p).
Definition set_materialCount (n : nat) (p : Page) : Page :=
  mkPage (loadingInGrid p) (materialsGrid p) (Some n) (syncTime p)
         (loadingDisplay p) (filtersContainer p) (searchInput p)
         (toastContainer p) (console p) (hostCalls p).
Definition set_syncTime (v : value) (p : Page) : Page :=
  mkPage (loadingInGrid p) (materialsGrid p) (materialCount p) (Some v)
         (loadingDisplay p) (filtersContainer p) (searchInput p)
         (toastContainer p) (console p) (hostCalls p).
Definition set_loadingDisplay (d : Display) (p : Page) : Page :=
  mkPage (loadingInGrid p) (materialsGrid p) (materialCount p) (syncTime p) d
         (filtersContainer p) (searchInput p) (toastContainer p) (console p)
         (hostCalls p).
Definition set_filtersContainer (l : list FilterButton) (p : Page) : Page :=
  mkPage (loadingInGrid p) (materialsGrid p) (materialCount p) (syncTime p)
         (loadingDisplay p) l (searchInput p) (toastContainer p) (console p)
         (hostCalls p).
Definition set_searchInput (s : string) (p : Page) : Page :=
  mkPage (loadingInGrid p) (materialsGrid p) (materialCount p) (syncTime p)
         (loadingDisplay p) (filtersContainer p) s (toastContainer p)
         (console p) (hostCalls p).
Definition add_toast (t : Toast) (p : Page) : Page :=
  mkPage (loadingInGrid p) (materialsGrid p) (materialCount p) (syncTime p)
         (loadingDisplay p) (filtersContainer p) (searchInput p)
         (toastContainer p ++ [t]) (console p) (hostCalls p).
Definition add_log (e : LogEntry) (p : Page) : Page :=
  mkPage (loadingInGrid p) (materialsGrid p) (materialCount p) (syncTime p)
         (loadingDisplay p) (filtersContainer p) (searchInput p)
         (toastContainer p) (console p ++ [e]) (hostCalls p).
Definition add_hostCall (v : value) (p : Page) : Page :=
  mkPage (loadingInGrid p) (materialsGrid p) (materialCount p) (syncTime p)
         (loadingDisplay p) (filtersContainer p) (searchInput p)
         (toastContainer p) (console p) (hostCalls p ++ [v]).

Definition on_state (f : State -> State) (w : World) : World :=
  mkWorld (f (state w)) (page w) (sketchup w).
Definition on_page (f : Page -> Page) (w : World) : World :=
  mkWorld (state w) (f (page w)) (sketchup w).

(** ** Statements: state passing with exceptions *)

(** A statement returns or throws, and leaves a world either way. *)
Definition M (A : Type) : Type := World -> res A * World.

Definition ret {A} (a : A) : M A := fun w => (Ok a, w).
Definition raise {A} (e : exn) : M A := fun w => (Throw e, w).
Definition bind {A B} (m : M A) (k : A -> M B) : M B :=
  fun w =>
    match m w with
    | (Ok a, w') => k a w'
    | (Throw e, w') => (Throw e, w')
    end.
(** [try { m } catch (e) { h e }] *)
Definition try_catch {A} (m : M A) (h : exn -> M A) : M A :=
  fun w =>
    match m w with
    | (Ok a, w') => (Ok a, w')
    | (Throw e, w') => h e w'
    end.
Definition lift {A} (r : res A) : M A := fun w => (r, w).
Definition modify (f : World -> World) : M unit := fun w => (Ok tt, f w).
Definition read {A} (f : World -> A) : M A := fun w => (Ok (f w), w).

Declare Scope m_scope.
Delimit Scope m_scope with M.
Notation "x <- m ;; k" := (bind m (fun x => k))
  (at level 61, m at next level, right associativity) : m_scope.
Notation "m ;; k" := (bind m (fun _ => k))
  (at level 61, right associativity) : m_scope.

(** The world a statement leaves, and whether it threw. *)
Definition after {A} (m : M A) (w : World) : World := snd (m w).
Definition failed {A} (m : M A) (w : World) : bool := throws (fst (m w)).

Open Scope m_scope.

(** ** UI helpers *)

Definition showLoading : M unit :=
  modify (on_page (set_loadingDisplay DisplayFlex)).

Definition hideLoading : M unit :=
  modify (on_page (set_loadingDisplay DisplayNone)).

Definition showError (message : string) : M unit :=
  modify (on_page (set_materialsGrid (GridError message))).

Definition showToast (message : Message) (type : string) : M unit :=
  modify (on_page (add_toast (mkToast type message))).

Definition console_error (what : string) (e : exn) : M unit :=
  modify (on_page (add_log (LogError what e))).

Definition console_log (what : string) (v : value) : M unit :=
  modify (on_page (add_log (LogInfo what v))).

(** ** Rendering *)

(** [v.slice(0, 3)]: arrays and strings have the method. *)
Definition slice3 (v : value) : res value :=
  match v with
  | VArray items => Ok (VArray (firstn 3 items))
  | VString s => Ok (VString (substring 0 3 s))
  | _ => Throw TypeError
  end.

(** [v.map(f)]: only arrays have the method. *)
Definition array_map {B} (f : value -> res B) (v : value) : res (list B) :=
  match v with
  | VArray items => mapM f items
  | _ => Throw TypeError
  end.

Definition createMaterialCard (material : value) : res Card :=
  let? tags := get material "tags" in
  let? first3 := slice3 tags in
  let? tagsHtml := array_map interpolate first3 in
  let? id := rbind (get material "id") interpolate in
  let? image := rbind (get material "image_url") interpolate in
  let? title := rbind (get material "title") interpolate in
  let? description := rbind (get material "description") interpolate in
  let? board := rbind (get material "board") interpolate in
  Ok (mkCard id image title description tagsHtml board).

Definition renderMaterials : M unit :=
  hideLoading ;;
  filtered <- read (fun w => filteredMaterials (state w)) ;;
  if (List.length filtered =? 0)%nat then
    modify (on_page (set_materialsGrid GridEmptyState)) ;;
    modify (on_page (set_materialCount 0))
  else
    cards <- lift (mapM createMaterialCard filtered) ;;
    modify (on_page (set_materialsGrid (GridCards cards))) ;;
    modify (on_page (set_materialCount (List.length filtered))).

(** ** The filter bar *)

Definition mainCategories : list string :=
  ["kayu"; "batik"; "batu"; "bambu"; "rotan"].

(** [v.forEach(f)]: only arrays have the method; the values [f] collects are
    appended in order. *)
Definition array_collect (f : value -> res (list value)) (v : value)
  : res (list value) :=
  match v with
  | VArray items => rbind (mapM f items) (fun ls => Ok (List.concat ls))
  | _ => Throw TypeError
  end.

(** The members of [allTags], in insertion order (a [Set] drops repeats,
    which [has] cannot observe). *)
Definition allTags (ms : value) : res (list value) :=
  array_collect
    (fun material =>
       let? tags := get material "tags" in
       array_collect (fun tag => Ok [tag]) tags)
    ms.

(** [allTags.has(cat)] for a string [cat]. *)
Definition set_has (cat : string) (s : list value) : bool :=
  existsb (strict_equals (VString cat)) s.

Definition categoryTags (ms : value) : res (list string) :=
  let? tags := allTags ms in
  let? boards := array_map (fun m => get m "board") ms in
  Ok (filter (fun cat => set_has cat tags) mainCategories).

Definition filterButton (tag : string) : FilterButton :=
  mkButton tag (Str.capitalizeFirst tag) false.

(** [allButton.insertAdjacentHTML('afterend', html)] with [allButton] the
    first control whose [data-filter] is ["all"]; [None] when the query
    selector finds none. *)
Fixpoint insertAfterAll (new : list FilterButton) (bar : list FilterButton)
  : option (list FilterButton) :=
  match bar with
  | [] => None
  | b :: bar' =>
      if data_filter b =? "all" then Some (b :: new ++ bar')
      else option_map (cons b) (insertAfterAll new bar')
  end.

Definition generateFilterTags : M unit :=
  ms <- read (fun w => materials (state w)) ;;
  cats <- lift (categoryTags ms) ;;
  bar <- read (fun w => filtersContainer (page w)) ;;
  match insertAfterAll (map filterButton cats) bar with
  | None => raise TypeError
  | Some bar' => modify (on_page (set_filtersContainer bar'))
  end.

(** ** Filtering and search *)

(** [recv.includes(x)] for a string [x]: membership in an array, substring
    of a string; no other value has the method. *)
Definition method_includes (recv : value) (x : string) : res bool :=
  match recv with
  | VArray items => Ok (existsb (strict_equals (VString x)) items)
  | VString s => Ok (Str.includes x s)
  | _ => Throw TypeError
  end.

(** [v.toLowerCase().includes(query)]: only strings have [toLowerCase]. *)
Definition lowered_includes (query : string) (v : value) : res bool :=
  match v with
  | VString s => Ok (Str.includes query (Str.toLowerCase s))
  | _ => Throw TypeError
  end.

(** [v.some(p)]: only arrays have the method. *)
Definition array_some (p : value -> res bool) (v : value) : res bool :=
  match v with
  | VArray items => someM p items
  | _ => Throw TypeError
  end.

(** [a || b] on booleans, [b] evaluated only when [a] is false. *)
Definition or_else (a : res bool) (b : res bool) : res bool :=
  let? x := a in if x then Ok true else b.

Definition tagFilter (activeFilter : string) (material : value) : res bool :=
  let? tags := get material "tags" in
  method_includes tags activeFilter.

Definition searchFilter (query : string) (material : value) : res bool :=
  or_else (rbind (get material "title") (lowered_includes query))
  (or_else (rbind (get material "description") (lowered_includes query))
  (or_else (rbind (get material "tags")
                  (array_some (lowered_includes query)))
           (rbind (get material "board") (lowered_includes query)))).

(** The value [applyFilters] computes for [filtered] from
    [state.materials], [state.activeFilter] and [state.searchQuery]. *)
Definition filterPipeline (ms : value) (activeFilter searchQuery : string)
  : res (list value) :=
  let? filtered := spread ms in
  let? filtered :=
    if negb (activeFilter =? "all")
    then filterM (tagFilter activeFilter) filtered
    else Ok filtered in
  if Str.nonempty (Str.trim searchQuery)
  then filterM (searchFilter (Str.toLowerCase searchQuery)) filtered
  else Ok filtered.

Definition applyFilters : M unit :=
  st <- read state ;;
  filtered <- lift (filterPipeline (materials st) (activeFilter st)
                                   (searchQuery st)) ;;
  modify (on_state (set_filteredMaterials filtered)) ;;
  renderMaterials.

Definition toggleActive (f : string) (b : FilterButton) : FilterButton :=
  mkButton (data_filter b) (label b) (data_filter b =? f).

Definition setActiveFilter (f : string) : M unit :=
  modify (on_state (set_activeFilter f)) ;;
  modify (on_page (fun p => set_filtersContainer
                              (map (toggleActive f) (filtersContainer p)) p)) ;;
  applyFilters.

(** The debounced [input] listener, when its timer fires with [v] in the
    search box, and the [keydown] listener on Escape. *)
Definition onSearchInput (v : string) : M unit :=
  modify (on_page (set_searchInput v)) ;;
  modify (on_state (set_searchQuery v)) ;;
  applyFilters.

Definition onEscape : M unit :=
  modify (on_page (set_searchInput "")) ;;
  modify (on_state (set_searchQuery "")) ;;
  applyFilters.

(** ** Data fetching *)

(** What the two [await]s of [fetchLibrary] deliver: [fetch] rejects, or
    resolves to a response with its [ok] flag, whose [json()] rejects
    ([body = None]) or resolves to the parsed body. *)
Inductive FetchOutcome : Type :=
| FetchRejected
| Response (ok : bool) (body : option value).

Definition loadErrorMessage : string :=
  "Gagal memuat library. Pastikan file library.json tersedia.".

(** [fetchLibrary] up to its first [await]. *)
Definition fetchLibrary_begin : M unit :=
  modify (on_state (set_isLoading true)) ;;
  showLoading.

(** The rest of the [try] block, once the response is there. *)
Definition fetchLibrary_body (o : FetchOutcome) : M unit :=
  data <- match o with
          | FetchRejected => raise NetworkError
          | Response false _ => raise LoadError
          | Response true None => raise SyntaxError
          | Response true (Some data) => ret data
          end ;;
  ms <- lift (get data "materials") ;;
  modify (on_state (set_materials (if truthy ms then ms else VArray []))) ;;
  ms' <- read (fun w => materials (state w)) ;;
  copy <- lift (spread ms') ;;
  modify (on_state (set_filteredMaterials copy)) ;;
  last_sync <- lift (get data "last_sync") ;;
  (if truthy last_sync then
     syncDate <- lift (interpolate last_sync) ;;
     modify (on_page (set_syncTime syncDate))
   else ret tt) ;;
  generateFilterTags ;;
  renderMaterials ;;
  modify (on_state (set_isLoading false)).

Definition fetchLibrary_catch (error : exn) : M unit :=
  console_error "Error fetching library:" error ;;
  showError loadErrorMessage ;;
  modify (on_state (set_isLoading false)).

Definition fetchLibrary_resume (o : FetchOutcome) : M unit :=
  try_catch (fetchLibrary_body o) fetchLibrary_catch.

(** A load that no other event interleaves with. *)
Definition fetchLibrary (o : FetchOutcome) : M unit :=
  try_catch (fetchLibrary_begin ;; fetchLibrary_body o) fetchLibrary_catch.

(** ** Material actions *)

Definition notFoundMessage : string := "Material tidak ditemukan".

(** [v.find(p)] and [v.findIndex(p)]: only arrays have the methods. *)
Definition array_find (p : value -> res bool) (v : value)
  : res (option value) :=
  match v with
  | VArray items => findM p items
  | _ => Throw TypeError
  end.

Definition array_findIndex (p : value -> res bool) (v : value) : res Z :=
  match v with
  | VArray items => findIndex p items
  | _ => Throw TypeError
  end.

(** [m => m.id === materialId] *)
Definition hasId (materialId : value) (m : value) : res bool :=
  let? id := get m "id" in Ok (strict_equals id materialId).

Definition applyMaterial (materialId : value) : M unit :=
  ms <- read (fun w => materials (state w)) ;;
  found <- lift (array_find (hasId materialId) ms) ;;
  match found with
  | None => showToast (Text notFoundMessage) "error"
  | Some material =>
      if negb (truthy material) then showToast (Text notFoundMessage) "error"
      else
        console_log "Applying material:" material ;;
        host <- read sketchup ;;
        if host then modify (on_page (add_hostCall material))
        else
          title <- lift (rbind (get material "title") interpolate) ;;
          showToast (MaterialReady title) "success"
  end.

(** ** Bridge functions *)

Definition refreshLibrary (o : FetchOutcome) : M unit := fetchLibrary o.

(** [m => m.id === material.id] *)
Definition sameId (material : value) (m : value) : res bool :=
  let? a := get m "id" in
  let? b := get material "id" in
  Ok (strict_equals a b).

(** [state.materials[index] = material] and [state.materials.push(material)]
    write into the array [state.materials] holds. *)
Definition array_assign (index : Z) (x : value) (v : value) : value :=
  match v with
  | VArray items => VArray (assign (Z.to_nat index) x items)
  | _ => v
  end.

Definition array_push (x : value) (v : value) : value :=
  match v with
  | VArray items => VArray (items ++ [x])
  | _ => v
  end.

(** The [try] block of [updateMaterial]; [parsed] is what
    [JSON.parse(materialJson)] gives, [None] when it throws on text that is
    not JSON. *)
Definition updateMaterial_body (parsed : option value) : M unit :=
  material <- match parsed with
              | None => raise SyntaxError
              | Some material => ret material
              end ;;
  ms <- read (fun w => materials (state w)) ;;
  index <- lift (array_findIndex (sameId material) ms) ;;
  (if negb (index =? -1)%Z
   then modify (on_state (set_materials (array_assign index material ms)))
   else modify (on_state (set_materials (array_push material ms)))) ;;
  applyFilters.

Definition updateMaterial (parsed : option value) : M unit :=
  try_catch (updateMaterial_body parsed)
            (fun e => console_error "Error updating material:" e).

Definition showMessage (message : string) (type : string) : M unit :=
  showToast (Text message) type.

(** ** The page as loaded *)

Definition initialState : State :=
  mkState (VArray []) [] "all" "" true.

(** Modelled from the spec: [index.html] is not part of the sources; the
    filter bar starts with the one permanent control whose [data-filter] is
    ["all"] (the "Semua" button the code looks up), and the position of the
    loading indicator is the parameter [inGrid]. *)
Definition initialPage (inGrid : bool) : Page :=
  mkPage inGrid GridMarkup None None DisplayMarkup
         [mkButton "all" "Semua" true] "" [] [] [].

Definition initialWorld (inGrid host : bool) : World :=
  mkWorld initialState (initialPage inGrid) host.

(** ** Well-formed catalog entries *)

(** A Material of the inbound data contract, and the object [JSON.parse]
    builds for it. *)
Record Material : Type := mkMaterial {
  id : string;
  title : string;
  description : string;
  image_url : string;
  source_url : string;
  tags : list string;
  board : string
}.

Definition to_value (m : Material) : value :=
  VObject [("id", VString (id m));
           ("title", VString (title m));
           ("description", VString (description m));
           ("image_url", VString (image_url m));
           ("source_url", VString (source_url m));
           ("tags", VArray (map VString (tags m)));
           ("board", VString (board m))].

Definition catalog (M : list Material) : value := VArray (map to_value M).

(** The filter and the search as the specification words them. *)
Module Spec.

(** The tag sequence of [m] contains [f], compared exactly. *)
Definition hasTag (f : string) (m : Material) : bool :=
  existsb (String.eqb f) (tags m).

(** [q] occurs in [s] when case is ignored. *)
Definition occursIn (q s : string) : bool :=
  Str.includes (Str.toLowerCase q) (Str.toLowerCase s).

(** [q] occurs in the title, the description, a tag or the board. *)
Definition matches (q : string) (m : Material) : bool :=
  occursIn q (title m) || occursIn q (description m) ||
  existsb (occursIn q) (tags m) || occursIn q (board m).

Definition byTag (f : string) (M : list Material) : list Material :=
  if f =? "all" then M else filter (hasTag f) M.

Definition bySearch (q : string) (M : list Material) : list Material :=
  if Str.nonempty (Str.trim q) then filter (matches q) M else M.

(** Filter first, then search. *)
Definition filtered (M : list Material) (f q : string) : list Material :=
  bySearch q (byTag f M).

(** Replace the first entry with the id of [p], or append [p]. *)
Fixpoint upsert (p : Material) (M : list Material) : list Material :=
  match M with
  | [] => [p]
  | m :: M' => if id m =? id p then p :: M' else m :: upsert p M'
  end.

Definition hasId (i : string) (M : list Material) : bool :=
  existsb (fun m => id m =? i) M.

(** The recognized categories that occur as a tag, in allow-list order. *)
Definition categories (M : list Material) : list string :=
  filter (fun cat => existsb (hasTag cat) M) mainCategories.

End Spec.

(** The card of a well-formed material. *)
Definition cardOf (m : Material) : Card :=
  mkCard (VString (id m)) (VString (image_url m)) (VString (title m))
         (VString (description m)) (map VString (firstn 3 (tags m)))
         (VString (board m)).

(** The page after [renderMaterials] has drawn the materials [L]. *)
Definition rendered (L : list Material) (p : Page) : Page :=
  match L with
  | [] => set_materialCount 0
            (set_materialsGrid GridEmptyState
               (set_loadingDisplay DisplayNone p))
  | _ => set_materialCount (List.length L)
           (set_materialsGrid (GridCards (map cardOf L))
              (set_loadingDisplay DisplayNone p))
  end.

(** ** Sample catalog *)

Definition kayuJati : Material :=
  mkMaterial "a" "Kayu Jati" "Serat halus" "a.jpg" "pin/a" ["kayu"] "Tekstur".

Definition batuAlam : Material :=
  mkMaterial "b" "Batu Alam" "Batu kali" "b.jpg" "pin/b" ["batu"] "Tekstur".

Definition sampleBody : value :=
  VObject [("materials", catalog [kayuJati; batuAlam])].

(** The page after its first load of the sample catalog. *)
Definition loadedWorld : World :=
  after (fetchLibrary (Response true (Some sampleBody)))
        (initialWorld true false).

Definition jatiBaru : Material :=
  mkMaterial "a" "Kayu Jati Tua" "Serat kasar" "a2.jpg" "pin/a" ["kayu"]
             "Tekstur".

(** A body that is JSON but not a catalog: its one material has no tags. *)
Definition brokenBody : value :=
  VObject [("materials", VArray [VObject [("id", VString "z")]])].

(** The object [JSON.parse] builds for the text [{"id":"x"}]. *)
Definition bareIdPayload : value := VObject [("id", VString "x")].

(** The sample catalog loaded, then the "kayu" control clicked. *)
Definition kayuSelected : World := after (setActiveFilter "kayu") loadedWorld.

(** The index of the first material with id [i]. *)
Fixpoint position (i : string) (M : list Material) : option nat :=
  match M with
  | [] => None
  | m :: M' => if id m =? i then Some O else option_map S (position i M')
  end.

(** The request, the status check or the parse of the body fails, or the
    body is [null]: no catalog object is obtained. *)
Definition no_catalog (o : FetchOutcome) : bool :=
  match o with
  | FetchRejected => true
  | Response false _ => true
  | Response true None => true
  | Response true (Some VNull) => true
  | Response true (Some _) => false
  end.

(** [filteredMaterials] is what the pipeline computes from the current
    [materials], [activeFilter] and [searchQuery]. *)
Definition recomputed (s : State) : Prop :=
  filterPipeline (materials s) (activeFilter s) (searchQuery s) =
  Ok (filteredMaterials s).

(** [w'] differs from [w] at most in [materials], [filteredMaterials],
    [isLoading], the grid, the count, the sync time, the display of the
    loading indicator, the filter bar, the search box and the console. *)
Definition frame (w w' : World) : Prop :=
  activeFilter (state w') = activeFilter (state w) /\
  searchQuery (state w') = searchQuery (state w) /\
  toastContainer (page w') = toastContainer (page w) /\
  hostCalls (page w') = hostCalls (page w) /\
  loadingInGrid (page w') = loadingInGrid (page w) /\
  sketchup w' = sketchup w.

Definition preserves {A} (m : M A) : Prop := forall w, frame w (snd (m w)).

(** ** The rest of the controller *)

(** The click listener of a card. *)
Definition showMaterialDetails (materialId : value) : M unit :=
  ms <- read (fun w => materials (state w)) ;;
  found <- lift (array_find (hasId materialId) ms) ;;
  match found with
  | None => ret tt
  | Some material =>
      if negb (truthy material) then ret tt
      else
        source <- lift (get material "source_url") ;;
        if truthy source then
          title <- lift (rbind (get material "title") interpolate) ;;
          board <- lift (rbind (get material "board") interpolate) ;;
          showToast (MaterialFrom title board) "success"
        else ret tt
  end.

(** What [formatDate] returns: one of the four relative texts with the
    number interpolated, or the date as the locale prints it. *)
Inductive DateText : Type :=
| BaruSaja                       (* 'Baru saja' *)
| MenitLalu (n : Z)              (* `${diffMins} menit lalu` *)
| JamLalu (n : Z)                (* `${diffHours} jam lalu` *)
| HariLalu (n : Z)               (* `${diffDays} hari lalu` *)
| LocaleDate (date : option Z)   (* date.toLocaleDateString('id-ID', ...) *).

(** [formatDate(date)] at the moment [now].  A date is its time value, an
    integer number of milliseconds, [None] for an invalid date (its time
    value is NaN, and every comparison with NaN is false).  Time values are
    integers below 2^53 in size, where the subtraction, the divisions
    and [Math.floor] of the code are exact, so they are computed on [Z]
    ([Z.div] rounds down, as [Math.floor] does). *)
Definition formatDate (now : Z) (date : option Z) : DateText :=
  match date with
  | None => LocaleDate None
  | Some d =>
      let diffMs := (now - d)%Z in
      let diffMins := (diffMs / 60000)%Z in
      let diffHours := (diffMs / 3600000)%Z in
      let diffDays := (diffMs / 86400000)%Z in
      if (diffMins <? 1)%Z then BaruSaja
      else if (diffMins <? 60)%Z then MenitLalu diffMins
      else if (diffHours <? 24)%Z then JamLalu diffHours
      else if (diffDays <? 7)%Z then HariLalu diffDays
      else LocaleDate (Some d)
  end.

(** [debounce(func, wait)]: the closure keeps [timeout], the timer that is
    pending, here with the time it is due and the arguments of the call that
    set it.  Time is the clock of the event loop, in milliseconds. *)
Module Debounce.
Section Debounce.

Variable A : Type.

Record t : Type := mk {
  wait : nat;
  timeout : option (nat * A)
}.

Definition idle (wait : nat) : t := mk wait None.

(** [executedFunction(...args)] at time [now]: [clearTimeout(timeout)], then
    [timeout = setTimeout(later, wait)]. *)
Definition call (now : nat) (args : A) (d : t) : t :=
  mk (wait d) (Some (now + wait d, args)).

(** The arguments [later] passes to [func], when the pending timer is due
    at time [now]. *)
Definition due (now : nat) (d : t) : option A :=
  match timeout d with
  | Some (at_, args) => if (at_ <=? now)%nat then Some args else None
  | None => None
  end.

(** The timer that ran is no longer pending. *)
Definition expire (now : nat) (d : t) : t :=
  match due now d with
  | Some _ => mk (wait d) None
  | None => d
  end.

(** A sequence of calls, each at its time: a timer that is due by the time
    of a call runs before it.  Returns the arguments [func] was invoked
    with, in order. *)
Fixpoint run (calls : list (nat * A)) (d : t) : list A * t :=
  match calls with
  | [] => ([], d)
  | (now, args) :: calls' =>
      let fired := match due now d with Some a => [a] | None => [] end in
      let (later, d') := run calls' (call now args (expire now d)) in
      (fired ++ later, d')
  end.

(** Every call comes less than [w] after the one before it. *)
Fixpoint burst (w : nat) (last : nat) (calls : list (nat * A)) : Prop :=
  match calls with
  | [] => True
  | (now, _) :: calls' =>
      (last <= now)%nat /\ (now < last + w)%nat /\ burst w now calls'
  end.

(** Every call comes more than [w] after the one before it. *)
Fixpoint spaced (w : nat) (last : nat) (calls : list (nat * A)) : Prop :=
  match calls with
  | [] => True
  | (now, _) :: calls' => (last + w < now)%nat /\ spaced w now calls'
  end.

End Debounce.
End Debounce.

Arguments Debounce.mk {A} wait timeout.
Arguments Debounce.wait {A} t.
Arguments Debounce.timeout {A} t.
Arguments Debounce.idle {A} wait.
Arguments Debounce.call {A} now args d.
Arguments Debounce.due {A} now d.
Arguments Debounce.expire {A} now d.
Arguments Debounce.run {A} calls d.
Arguments Debounce.burst {A} w last calls.
Arguments Debounce.spaced {A} w last calls.

(** The page with the timer of the search box.  The debounced listener gets
    the event, whose target is the search box; it reads the text of the box
    when it runs, so the timer carries nothing. *)
Record Ui : Type := mkUi {
  world : World;
  searchTimer : Debounce.t unit
}.

(** The function [initEventListeners] passes to [debounce]. *)
Definition searchListener : M unit :=
  v <- read (fun w => searchInput (page w)) ;;
  modify (on_state (set_searchQuery v)) ;;
  applyFilters.

Definition initialUi (inGrid host : bool) : Ui :=
  mkUi (initialWorld inGrid host) (Debounce.idle 300).

(** The event loop at time [now]: a search timer that is due runs. *)
Definition settle (now : nat) (u : Ui) : res unit * Ui :=
  match Debounce.due now (searchTimer u) with
  | Some _ =>
      let (r, w') := searchListener (world u) in
      (r, mkUi w' (Debounce.expire now (searchTimer u)))
  | None => (Ok tt, u)
  end.

(** An [input] event at time [now] that leaves [v] in the search box. *)
Definition typeText (now : nat) (v : string) (u : Ui) : Ui :=
  mkUi (on_page (set_searchInput v) (world u))
       (Debounce.call now tt (searchTimer u)).

(** A [keydown] of Escape in the search box; the timer is not cleared. *)
Definition pressEscape (u : Ui) : res unit * Ui :=
  let (r, w') := onEscape (world u) in (r, mkUi w' (searchTimer u)).

(** Input events in the search box, each at its time with the text it
    leaves; the event loop runs a due timer before it handles the next
    event.  Returns what the timer runs returned. *)
Fixpoint keystrokes (events : list (nat * string)) (u : Ui)
  : list (res unit) * Ui :=
  match events with
  | [] => ([], u)
  | (now, v) :: events' =>
      let ran := match Debounce.due now (searchTimer u) with
                 | Some _ => [fst (settle now u)]
                 | None => []
                 end in
      let (later, u') := keystrokes events' (typeText now v (snd (settle now u))) in
      (ran ++ later, u')
  end.

(** A material with four tags and nothing else. *)
Definition manyTags : value :=
  VObject [("tags", VArray (map VString ["kayu"; "jati"; "tua"; "gelap"]))].

(** A page whose filter bar lacks the "all" control. *)
Definition barWithoutAll : World :=
  mkWorld initialState
          (set_filtersContainer [mkButton "kayu" "Kayu" false]
                                (initialPage true))
          false.

(** [l] is [l'] with some elements left out. *)
Inductive Subseq {A : Type} : list A -> list A -> Prop :=
| Subseq_nil : Subseq [] []
| Subseq_skip (x : A) (l l' : list A) : Subseq l l' -> Subseq l (x :: l')
| Subseq_keep (x : A) (l l' : list A) : Subseq l l' -> Subseq (x :: l) (x :: l').

(** A value a template literal converts without throwing whatever it
    holds: not an array, not an object. *)
Definition primitive (v : value) : bool :=
  match v with
  | VArray _ | VObject _ => false
  | _ => true
  end.

Definition is_array (v : value) : bool :=
  match v with VArray _ => true | _ => false end.

(** The number of controls of the filter bar that are active. *)
Definition activeCount (bar : list FilterButton) : nat :=
  List.length (filter active bar).

(** ** The pipeline over the string primitives of the runtime *)

(** [String.prototype.toLowerCase] and [String.prototype.trim] belong to
    the runtime and follow Unicode: every cased letter is folded (and a
    final sigma by its context), every white space character is stripped.
    [Str.toLowerCase] and [Str.trim] agree with them on ASCII text only.
    The definitions below are the search step, the pipeline and
    [applyFilters] again, statement for statement, with the two functions
    as the parameters [lower] and [trim]; what is proved of them for every
    [lower] and [trim] holds of the runtime's.  Text is read as UTF-8, on
    which [Str.includes] and [=?] agree with [includes] and [===] of
    JavaScript for well-formed strings. *)

(** [v.toLowerCase().includes(query)] *)
Definition lowered_includesBy (lower : string -> string)
           (query : string) (v : value) : res bool :=
  match v with
  | VString s => Ok (Str.includes query (lower s))
  | _ => Throw TypeError
  end.

Definition searchFilterBy (lower : string -> string)
           (query : string) (material : value) : res bool :=
  or_else (rbind (get material "title") (lowered_includesBy lower query))
  (or_else (rbind (get material "description") (lowered_includesBy lower query))
  (or_else (rbind (get material "tags")
                  (array_some (lowered_includesBy lower query)))
           (rbind (get material "board") (lowered_includesBy lower query)))).

Definition filterPipelineBy (lower trim : string -> string)
           (ms : value) (activeFilter searchQuery : string)
  : res (list value) :=
  let? filtered := spread ms in
  let? filtered :=
    if negb (activeFilter =? "all")
    then filterM (tagFilter activeFilter) filtered
    else Ok filtered in
  if Str.nonempty (trim searchQuery)
  then filterM (searchFilterBy lower (lower searchQuery)) filtered
  else Ok filtered.

Definition applyFiltersBy (lower trim : string -> string) : M unit :=
  st <- read state ;;
  filtered <- lift (filterPipelineBy lower trim (materials st) (activeFilter st)
                                     (searchQuery st)) ;;
  modify (on_state (set_filteredMaterials filtered)) ;;
  renderMaterials.

(** The search as the specification words it, over the same parameters. *)
Module SpecBy.

(** [q] occurs in [s] when case is ignored. *)
Definition occursIn (lower : string -> string) (q s : string) : bool :=
  Str.includes (lower q) (lower s).

(** [q] occurs in the title, the description, a tag or the board. *)
Definition matches (lower : string -> string) (q : string) (m : Material)
  : bool :=
  occursIn lower q (title m) || occursIn lower q (description m) ||
  existsb (occursIn lower q) (tags m) || occursIn lower q (board m).

Definition bySearch (lower trim : string -> string)
           (q : string) (M : list Material) : list Material :=
  if Str.nonempty (trim q) then filter (matches lower q) M else M.

(** Filter first, then search. *)
Definition filtered (lower trim : string -> string)
           (M : list Material) (f q : string) : list Material :=
  bySearch lower trim q (Spec.byTag f M).

End SpecBy.


(** * Properties *)

(** ** Strings *)

Lemma prefix_app (q s : string) :
  prefix q s = true <-> exists b, s = (q ++ b)%string.
Proof.
  revert s; induction q as [|c q IH]; intros s; simpl.
  - split; [intros _; exists s; reflexivity | intros _; destruct s; reflexivity].
  - destruct s as [|d s]; simpl.
    + split; [discriminate | intros [b Hb]; discriminate].
    + destruct (ascii_dec c d) as [->|Hne].
      * rewrite IH. split; intros [b Hb]; exists b; congruence.
      * split; [discriminate | intros [b Hb]; congruence].
Qed.

(** [Str.includes q s] holds exactly when [q] lies between two parts of [s]. *)
Lemma includes_spec (q s : string) :
  Str.includes q s = true <-> exists a b, s = (a ++ q ++ b)%string.
Proof.
  induction s as [|c s IH]; cbn [Str.includes].
  - rewrite orb_false_r, prefix_app. split.
    + intros [b Hb]. exists "", b. exact Hb.
    + intros [a [b Hab]]. destruct a; simpl in Hab; [|discriminate].
      exists b; exact Hab.
  - rewrite orb_true_iff, prefix_app, IH. split.
    + intros [[b Hb] | [a [b Hab]]].
      * exists "", b. exact Hb.
      * exists (String c a), b. simpl. now rewrite Hab.
    + intros [a [b Hab]]. destruct a as [|d a]; simpl in Hab.
      * left. exists b. exact Hab.
      * right. exists a, b. congruence.
Qed.

Lemma includes_empty (s : string) : Str.includes "" s = true.
Proof. destruct s; reflexivity. Qed.

(** ** The monad *)

Lemma filterM_pure {A} (p : A -> res bool) (q : A -> bool) (l : list A) :
  (forall x, In x l -> p x = Ok (q x)) ->
  filterM p l = Ok (filter q l).
Proof.
  induction l as [|x l IH]; intros H; simpl; [reflexivity|].
  rewrite (H x (or_introl eq_refl)); simpl.
  rewrite IH by (intros y Hy; apply H; right; exact Hy); simpl.
  reflexivity.
Qed.

Lemma someM_pure {A} (p : A -> res bool) (q : A -> bool) (l : list A) :
  (forall x, In x l -> p x = Ok (q x)) ->
  someM p l = Ok (existsb q l).
Proof.
  induction l as [|x l IH]; intros H; simpl; [reflexivity|].
  rewrite (H x (or_introl eq_refl)); simpl.
  destruct (q x); simpl; [reflexivity|].
  apply IH. intros y Hy; apply H; right; exact Hy.
Qed.

Lemma mapM_pure {A B} (f : A -> res B) (g : A -> B) (l : list A) :
  (forall x, In x l -> f x = Ok (g x)) ->
  mapM f l = Ok (map g l).
Proof.
  induction l as [|x l IH]; intros H; simpl; [reflexivity|].
  rewrite (H x (or_introl eq_refl)); simpl.
  rewrite IH by (intros y Hy; apply H; right; exact Hy); simpl.
  reflexivity.
Qed.

Lemma filter_map_comm {A B} (f : A -> B) (q : B -> bool) (l : list A) :
  filter q (map f l) = map f (filter (fun x => q (f x)) l).
Proof.
  induction l as [|x l IH]; simpl; [reflexivity|].
  destruct (q (f x)); simpl; now rewrite IH.
Qed.

(** ** Well-formed materials through the code *)

Lemma existsb_strings (p : string -> bool) (q : value -> bool) (l : list string) :
  (forall s, q (VString s) = p s) ->
  existsb q (map VString l) = existsb p l.
Proof.
  intros H. induction l as [|s l IH]; simpl; [reflexivity|].
  now rewrite H, IH.
Qed.

Lemma tagFilter_to_value (f : string) (m : Material) :
  tagFilter f (to_value m) = Ok (Spec.hasTag f m).
Proof.
  unfold tagFilter, Spec.hasTag; simpl.
  f_equal. apply existsb_strings. reflexivity.
Qed.

Lemma searchFilter_to_value (q : string) (m : Material) :
  searchFilter (Str.toLowerCase q) (to_value m) = Ok (Spec.matches q m).
Proof.
  unfold searchFilter, Spec.matches, Spec.occursIn; simpl.
  rewrite (someM_pure _ (fun v => match v with
                                  | VString s =>
                                      Str.includes (Str.toLowerCase q)
                                                   (Str.toLowerCase s)
                                  | _ => false
                                  end)).
  - rewrite (existsb_strings
               (fun s => Str.includes (Str.toLowerCase q) (Str.toLowerCase s)))
      by reflexivity.
    unfold or_else; simpl.
    destruct (Str.includes _ (Str.toLowerCase (title m))); simpl; [reflexivity|].
    destruct (Str.includes _ (Str.toLowerCase (description m))); simpl;
      [reflexivity|].
    destruct (existsb _ (tags m)); reflexivity.
  - intros v Hv. apply in_map_iff in Hv as [s [<- _]]. reflexivity.
Qed.

Lemma in_catalog (v : value) (M : list Material) :
  In v (map to_value M) -> exists m, v = to_value m /\ In m M.
Proof.
  intros H. apply in_map_iff in H as [m [<- Hm]]. exists m. now split.
Qed.

Lemma filterM_catalog (p : value -> res bool) (q : Material -> bool)
      (M : list Material) :
  (forall m, p (to_value m) = Ok (q m)) ->
  filterM p (map to_value M) = Ok (map to_value (filter q M)).
Proof.
  intros H. induction M as [|m M IH]; simpl; [reflexivity|].
  rewrite H, IH; simpl. now destruct (q m).
Qed.

(** On a well-formed catalog the pipeline of [applyFilters] never throws and
    computes the filter-then-search of the specification. *)
Lemma filterPipeline_catalog (M : list Material) (f q : string) :
  filterPipeline (catalog M) f q = Ok (map to_value (Spec.filtered M f q)).
Proof.
  unfold filterPipeline, Spec.filtered, Spec.bySearch, Spec.byTag, catalog.
  simpl. destruct (f =? "all"); simpl.
  - destruct (Str.nonempty (Str.trim q)); [|reflexivity].
    apply filterM_catalog, searchFilter_to_value.
  - rewrite (filterM_catalog _ (Spec.hasTag f)) by apply tagFilter_to_value.
    simpl. destruct (Str.nonempty (Str.trim q)); [|reflexivity].
    apply filterM_catalog, searchFilter_to_value.
Qed.

Lemma createMaterialCard_to_value (m : Material) :
  createMaterialCard (to_value m) = Ok (cardOf m).
Proof.
  unfold createMaterialCard, cardOf.
  cbn [to_value get lookup String.eqb Ascii.eqb Bool.eqb rbind slice3
       array_map interpolate toString_throws].
  rewrite firstn_map.
  rewrite (mapM_pure _ (fun v => v)).
  - cbn [rbind]. now rewrite map_id.
  - intros v Hv. apply in_map_iff in Hv as [s [<- _]]. reflexivity.
Qed.

Lemma cards_catalog (L : list Material) :
  mapM createMaterialCard (map to_value L) = Ok (map cardOf L).
Proof.
  induction L as [|m L IH]; [reflexivity|].
  cbn [map mapM]. now rewrite createMaterialCard_to_value, IH.
Qed.

Lemma renderMaterials_catalog (w : World) (L : list Material) :
  filteredMaterials (state w) = map to_value L ->
  renderMaterials w = (Ok tt, on_page (rendered L) w).
Proof.
  intros H. unfold renderMaterials, bind, hideLoading, read, modify, lift.
  cbn [state on_page]. rewrite H, cards_catalog, length_map.
  destruct L as [|m L]; reflexivity.
Qed.

(** [applyFilters] on a well-formed catalog: it returns, stores the
    filter-then-search of the specification and draws it. *)
Lemma applyFilters_catalog (w : World) (M : list Material) :
  materials (state w) = catalog M ->
  applyFilters w =
  (Ok tt,
   on_page
     (rendered (Spec.filtered M (activeFilter (state w)) (searchQuery (state w))))
     (on_state
        (set_filteredMaterials
           (map to_value
              (Spec.filtered M (activeFilter (state w)) (searchQuery (state w)))))
        w)).
Proof.
  intros H. unfold applyFilters, bind, read, lift, modify.
  rewrite H, filterPipeline_catalog.
  cbn [rbind].
  now rewrite (renderMaterials_catalog _
                 (Spec.filtered M (activeFilter (state w))
                                (searchQuery (state w)))).
Qed.

Lemma map_VString_inj (l l' : list string) :
  map VString l = map VString l' -> l = l'.
Proof.
  revert l'. induction l as [|t l IH]; intros [|t' l'] H;
    cbn in H; try discriminate; [reflexivity|].
  injection H as -> H. f_equal. now apply IH.
Qed.

Lemma to_value_inj (m m' : Material) : to_value m = to_value m' -> m = m'.
Proof.
  destruct m, m'; unfold to_value; cbn. intros H.
  injection H as -> -> -> -> -> Ht ->.
  apply map_VString_inj in Ht as ->. reflexivity.
Qed.

Lemma catalog_inj (L M : list Material) :
  map to_value L = map to_value M -> L = M.
Proof.
  revert M. induction L as [|x L IH]; intros [|y M] H;
    try discriminate H; [reflexivity|].
  pose proof (f_equal (hd VNull) H) as Hx.
  pose proof (f_equal (@tl value) H) as Ht. cbn [map hd tl] in Hx, Ht.
  apply to_value_inj in Hx as ->. f_equal. now apply IH.
Qed.

Lemma filter_twice {A} (p q : A -> bool) (l : list A) :
  filter q (filter p l) = filter (fun x => p x && q x) l.
Proof.
  induction l as [|x l IH]; simpl; [reflexivity|].
  destruct (p x); simpl; [destruct (q x)|]; now rewrite IH.
Qed.

(** ** Filter and search (C2, C3, C10) *)

(** C2: with a filter [f] other than ["all"] and an empty search query,
    [applyFilters] returns and stores exactly the materials of [M] whose tag
    sequence contains [f] under exact comparison, in the order of [M]
    ([filter] keeps order, repeats nothing and drops nothing that
    qualifies). *)
Theorem C2_tag_filter_subsequence (w : World) (M : list Material) (f : string) :
  f <> "all" ->
  materials (state w) = catalog M ->
  activeFilter (state w) = f ->
  searchQuery (state w) = "" ->
  failed applyFilters w = false /\
  filteredMaterials (state (after applyFilters w)) =
    map to_value (filter (fun m => existsb (String.eqb f) (tags m)) M).
Proof.
  intros Hf HM Ha Hq. unfold failed, after.
  rewrite (applyFilters_catalog w M HM). cbn [fst snd throws].
  split; [reflexivity|]. cbn [state on_page on_state set_filteredMaterials
                                filteredMaterials].
  rewrite Ha, Hq. unfold Spec.filtered, Spec.bySearch, Spec.byTag.
  apply String.eqb_neq in Hf. rewrite Hf. reflexivity.
Qed.

Lemma C2_witness :
  filteredMaterials
    (state (after applyFilters
                  (on_state (set_activeFilter "kayu") loadedWorld))) =
  map to_value [kayuJati].
Proof.
  refine (proj2 (C2_tag_filter_subsequence
                   (on_state (set_activeFilter "kayu") loadedWorld)
                   [kayuJati; batuAlam] "kayu" _ _ _ _));
    [discriminate | reflexivity | reflexivity | reflexivity].
Defined.

(** The search step and the pipeline for any [lower] and [trim]. *)
Section RuntimeStrings.

Variables lower trim : string -> string.

Lemma searchFilterBy_to_value (q : string) (m : Material) :
  searchFilterBy lower (lower q) (to_value m) = Ok (SpecBy.matches lower q m).
Proof.
  unfold searchFilterBy, SpecBy.matches, SpecBy.occursIn.
  cbn [to_value get lookup String.eqb Ascii.eqb Bool.eqb rbind
       lowered_includesBy array_some].
  rewrite (someM_pure _ (fun v => match v with
                                  | VString s => Str.includes (lower q) (lower s)
                                  | _ => false
                                  end)).
  - rewrite (existsb_strings (fun s => Str.includes (lower q) (lower s)))
      by reflexivity.
    unfold or_else. cbn [rbind].
    destruct (Str.includes (lower q) (lower (title m))); cbn [orb];
      [reflexivity|].
    destruct (Str.includes (lower q) (lower (description m))); cbn [orb];
      [reflexivity|].
    destruct (existsb _ (tags m)); reflexivity.
  - intros v Hv. apply in_map_iff in Hv as [s [<- _]]. reflexivity.
Qed.

(** On a well-formed catalog the pipeline never throws and computes the
    filter-then-search of the specification. *)
Lemma filterPipelineBy_catalog (M : list Material) (f q : string) :
  filterPipelineBy lower trim (catalog M) f q =
  Ok (map to_value (SpecBy.filtered lower trim M f q)).
Proof.
  unfold filterPipelineBy, SpecBy.filtered, SpecBy.bySearch, Spec.byTag, catalog.
  cbn [spread rbind]. destruct (f =? "all"); cbn [negb rbind].
  - destruct (Str.nonempty (trim q)); [|reflexivity].
    apply filterM_catalog, searchFilterBy_to_value.
  - rewrite (filterM_catalog _ (Spec.hasTag f)) by apply tagFilter_to_value.
    cbn [rbind]. destruct (Str.nonempty (trim q)); [|reflexivity].
    apply filterM_catalog, searchFilterBy_to_value.
Qed.

Lemma applyFiltersBy_catalog (w : World) (M : list Material) :
  materials (state w) = catalog M ->
  applyFiltersBy lower trim w =
  (Ok tt,
   on_page
     (rendered (SpecBy.filtered lower trim M (activeFilter (state w))
                                (searchQuery (state w))))
     (on_state
        (set_filteredMaterials
           (map to_value
              (SpecBy.filtered lower trim M (activeFilter (state w))
                               (searchQuery (state w)))))
        w)).
Proof.
  intros H. unfold applyFiltersBy, bind, read, lift, modify.
  rewrite H, filterPipelineBy_catalog.
  now rewrite (renderMaterials_catalog _
                 (SpecBy.filtered lower trim M (activeFilter (state w))
                                  (searchQuery (state w)))).
Qed.

End RuntimeStrings.

(** [applyFilters] and its pipeline are the instance at the ASCII
    primitives. *)
Lemma applyFilters_instance :
  applyFilters = applyFiltersBy Str.toLowerCase Str.trim /\
  filterPipeline = filterPipelineBy Str.toLowerCase Str.trim.
Proof. split; reflexivity. Qed.

(** C3: with a search query [q] that is not empty once trimmed,
    [applyFilters] returns and stores exactly the materials of the tag
    filter's output in which [q] occurs, case ignored (the lowercased [q]
    in the lowercased text), in the title, the description, a tag or the
    board; under a filter other than ["all"] that is the materials of [M]
    satisfying both predicates, so a material is kept only if it has the
    tag and matches the query.  This holds whatever the runtime's
    [toLowerCase] and [trim] are. *)
Theorem C3_search_after_filter
        (lower trim : string -> string)
        (w : World) (M : list Material) (f q : string) :
  trim q <> "" ->
  materials (state w) = catalog M ->
  activeFilter (state w) = f ->
  searchQuery (state w) = q ->
  let result :=
    filteredMaterials (state (after (applyFiltersBy lower trim) w)) in
  failed (applyFiltersBy lower trim) w = false /\
  result = map to_value (filter (SpecBy.matches lower q) (Spec.byTag f M)) /\
  (f <> "all" ->
   result = map to_value
              (filter (fun m => Spec.hasTag f m && SpecBy.matches lower q m) M) /\
   forall m, In (to_value m) result -> Spec.hasTag f m = true /\
                                     SpecBy.matches lower q m = true).
Proof.
  intros Hq HM Ha Hs result. subst result. unfold failed, after.
  rewrite (applyFiltersBy_catalog lower trim w M HM). cbn [fst snd throws].
  split; [reflexivity|].
  cbn [state on_page on_state set_filteredMaterials filteredMaterials].
  rewrite Ha, Hs. unfold SpecBy.filtered, SpecBy.bySearch, Str.nonempty.
  apply String.eqb_neq in Hq. rewrite Hq. cbn [negb].
  split; [reflexivity|]. intros Hf.
  unfold Spec.byTag. apply String.eqb_neq in Hf. rewrite Hf.
  rewrite filter_twice. split; [reflexivity|].
  intros m Hm. apply in_map_iff in Hm as [m' [Heq Hin]].
  apply filter_In in Hin as [_ Hboth].
  apply andb_true_iff in Hboth.
  apply to_value_inj in Heq as ->. exact Hboth.
Qed.

Lemma C3_witness :
  filteredMaterials
    (state (after (applyFiltersBy Str.toLowerCase Str.trim)
                  (on_state (set_searchQuery "JATI")
                            (on_state (set_activeFilter "kayu") loadedWorld)))) =
  map to_value [kayuJati].
Proof.
  refine (proj1 (proj2 (C3_search_after_filter
                   Str.toLowerCase Str.trim
                   (on_state (set_searchQuery "JATI")
                             (on_state (set_activeFilter "kayu") loadedWorld))
                   [kayuJati; batuAlam] "kayu" "JATI" _ _ _ _)));
    [vm_compute; discriminate | reflexivity | reflexivity | reflexivity].
Defined.

(** C10: the trimmed query decides whether the search step runs, and the
    step itself looks for the lowercased query as typed, white space
    included, whatever the runtime's [toLowerCase] and [trim] are; so
    [" kayu"] and ["kayu"], equal once trimmed, select different materials
    of the sample catalog. *)
Theorem C10_untrimmed_query_is_matched :
  (forall (lower trim : string -> string)
          (M : list Material) (f q : string),
      filterPipelineBy lower trim (catalog M) f q =
      Ok (map to_value
            (if trim q =? "" then Spec.byTag f M
             else filter
                    (fun m =>
                       let query := lower q in
                       Str.includes query (lower (title m)) ||
                       Str.includes query (lower (description m)) ||
                       existsb (fun t => Str.includes query (lower t))
                               (tags m) ||
                       Str.includes query (lower (board m)))
                    (Spec.byTag f M)))) /\
  Str.trim " kayu" = Str.trim "kayu" /\
  filterPipeline (catalog [kayuJati; batuAlam]) "all" "kayu" =
    Ok [to_value kayuJati] /\
  filterPipeline (catalog [kayuJati; batuAlam]) "all" " kayu" = Ok [].
Proof.
  split; [|repeat split; reflexivity].
  intros lower trim M f q. rewrite filterPipelineBy_catalog.
  unfold SpecBy.filtered, SpecBy.bySearch, Str.nonempty.
  destruct (trim q =? ""); reflexivity.
Qed.

(** ** Upsert (C4) *)

Lemma sameId_to_value (p m : Material) :
  sameId (to_value p) (to_value m) = Ok (id m =? id p).
Proof. reflexivity. Qed.

Lemma findIndexFrom_catalog (p : Material) (M : list Material) (k : Z) :
  findIndexFrom (sameId (to_value p)) k (map to_value M) =
  Ok (match position (id p) M with
      | Some n => (k + Z.of_nat n)%Z
      | None => (-1)%Z
      end).
Proof.
  revert k. induction M as [|m M IH]; intros k; [reflexivity|].
  cbn [map findIndexFrom position]. rewrite sameId_to_value. cbn [rbind].
  destruct (id m =? id p).
  - f_equal. cbn. lia.
  - rewrite IH. destruct (position (id p) M); cbn [option_map]; f_equal. lia.
Qed.

Lemma position_hasId (i : string) (M : list Material) :
  position i M = None <-> Spec.hasId i M = false.
Proof.
  induction M as [|m M IH]; cbn; [tauto|].
  destruct (id m =? i); cbn; [split; discriminate|].
  rewrite <- IH. destruct (position i M); cbn; split; congruence.
Qed.

Lemma assign_upsert (p : Material) (M : list Material) (n : nat) :
  position (id p) M = Some n ->
  assign n (to_value p) (map to_value M) = map to_value (Spec.upsert p M).
Proof.
  revert n. induction M as [|m M IH]; intros n; cbn; [discriminate|].
  destruct (id m =? id p); cbn.
  - intros [= <-]. reflexivity.
  - destruct (position (id p) M) as [k|]; cbn; [|discriminate].
    intros [= <-]. cbn. f_equal. now apply IH.
Qed.

Lemma upsert_absent (p : Material) (M : list Material) :
  Spec.hasId (id p) M = false -> Spec.upsert p M = M ++ [p].
Proof.
  induction M as [|m M IH]; cbn; [reflexivity|].
  destruct (id m =? id p); cbn; [discriminate|].
  intros H. now rewrite IH.
Qed.


(** [updateMaterial] with the object of a well-formed material [p], on a
    well-formed catalog: it returns, [state.materials] holds the upsert of
    the specification, and the filtered list is recomputed and drawn. *)
Lemma updateMaterial_body_catalog
      (w : World) (M : list Material) (p : Material) :
  materials (state w) = catalog M ->
  let M' := Spec.upsert p M in
  let L := Spec.filtered M' (activeFilter (state w)) (searchQuery (state w)) in
  updateMaterial_body (Some (to_value p)) w =
  (Ok tt, on_page (rendered L)
            (on_state (set_filteredMaterials (map to_value L))
               (on_state (set_materials (catalog M')) w))).
Proof.
  intros HM M' L.
  unfold updateMaterial_body, bind, ret, read, lift.
  rewrite HM. unfold catalog at 1, array_findIndex, findIndex.
  rewrite findIndexFrom_catalog.
  destruct (position (id p) M) as [n|] eqn:E.
  - replace (negb (0 + Z.of_nat n =? -1)%Z) with true
      by (symmetry; apply negb_true_iff, Z.eqb_neq; lia).
    unfold modify. cbn [array_assign catalog].
    replace (Z.to_nat (0 + Z.of_nat n)) with n by lia.
    rewrite (assign_upsert p M n E).
    change (VArray (map to_value (Spec.upsert p M))) with (catalog M').
    rewrite (applyFilters_catalog (on_state (set_materials (catalog M')) w) M')
      by reflexivity.
    reflexivity.
  - change (negb (-1 =? -1)%Z) with false. cbv iota.
    unfold modify. cbn [array_push catalog].
    apply position_hasId in E.
    replace (map to_value M ++ [to_value p]) with (map to_value M')
      by (unfold M'; rewrite (upsert_absent p M E), map_app; reflexivity).
    change (VArray (map to_value M')) with (catalog M').
    rewrite (applyFilters_catalog (on_state (set_materials (catalog M')) w) M')
      by reflexivity.
    reflexivity.
Qed.



(** ** The apply action (C8) *)

Lemma hasId_to_value (i : string) (m : Material) :
  hasId (VString i) (to_value m) = Ok (id m =? i).
Proof. reflexivity. Qed.

Lemma findM_catalog (i : string) (M : list Material) :
  findM (hasId (VString i)) (map to_value M) =
  Ok (option_map to_value (find (fun m => id m =? i) M)).
Proof.
  induction M as [|m M IH]; [reflexivity|].
  cbn [map findM find]. rewrite hasId_to_value. cbn [rbind].
  destruct (id m =? i); [reflexivity | exact IH].
Qed.

Lemma find_hasId (i : string) (M : list Material) :
  Spec.hasId i M = false <-> find (fun m => id m =? i) M = None.
Proof.
  unfold Spec.hasId. induction M as [|m M IH]; cbn; [tauto|].
  destruct (id m =? i); cbn; [split; discriminate | exact IH].
Qed.



(** ** Filter-tag derivation (C9) *)

Lemma allTags_catalog (M : list Material) :
  allTags (catalog M) =
  Ok (List.concat (map (fun m => map VString (tags m)) M)).
Proof.
  unfold allTags, catalog, array_collect.
  rewrite (mapM_pure _ (fun v => match get v "tags" with
                                 | Ok (VArray items) => items
                                 | _ => []
                                 end)).
  - cbn [rbind]. now rewrite map_map.
  - intros v Hv. apply in_catalog in Hv as [m [-> _]].
    cbn [to_value get lookup String.eqb Ascii.eqb Bool.eqb rbind].
    rewrite (mapM_pure _ (fun tag => [tag])) by reflexivity.
    cbn [rbind]. f_equal. induction (map VString (tags m)) as [|t l IH];
      [reflexivity|]. cbn. now rewrite IH.
Qed.

Lemma set_has_catalog (cat : string) (M : list Material) :
  set_has cat (List.concat (map (fun m => map VString (tags m)) M)) =
  existsb (Spec.hasTag cat) M.
Proof.
  unfold set_has. induction M as [|m M IH]; [reflexivity|].
  cbn [map List.concat existsb]. rewrite existsb_app, IH. f_equal.
  apply existsb_strings. reflexivity.
Qed.

(** The categories [generateFilterTags] derives from a well-formed catalog
    are the allow-list restricted to the categories that occur as a tag, in
    allow-list order. *)
Lemma categoryTags_catalog (M : list Material) :
  categoryTags (catalog M) = Ok (Spec.categories M).
Proof.
  unfold categoryTags. rewrite allTags_catalog. cbn [rbind].
  unfold catalog, array_map.
  rewrite (mapM_pure _ (fun v => match get v "board" with
                                 | Ok b => b
                                 | Throw _ => VUndefined
                                 end)).
  - cbn [rbind]. unfold Spec.categories. f_equal.
    apply filter_ext. intros cat. apply set_has_catalog.
  - intros v Hv. apply in_catalog in Hv as [m [-> _]]. reflexivity.
Qed.

(** [generateFilterTags] inserts one control per derived category right
    after the "all" control, and keeps every control already there. *)
Lemma generateFilterTags_catalog
      (w : World) (M : list Material) (b : FilterButton) (bar : list FilterButton) :
  materials (state w) = catalog M ->
  filtersContainer (page w) = b :: bar ->
  data_filter b = "all" ->
  generateFilterTags w =
  (Ok tt,
   on_page (set_filtersContainer
              (b :: map filterButton (Spec.categories M) ++ bar)) w).
Proof.
  intros HM Hbar Hall. unfold generateFilterTags, bind, read, lift.
  rewrite HM, categoryTags_catalog, Hbar. cbn [insertAfterAll].
  rewrite Hall. reflexivity.
Qed.

(** C9, at a refresh: the first load of the sample catalog puts one control
    per category after "all", in allow-list order; refreshing with the same
    catalog inserts them a second time and leaves the first ones in place,
    so each category then has two controls. *)
Theorem C9_refresh_duplicates_controls :
  categoryTags (catalog [batuAlam; kayuJati]) = Ok ["kayu"; "batu"] /\
  map data_filter (filtersContainer (page loadedWorld)) =
    ["all"; "kayu"; "batu"] /\
  failed (fetchLibrary_begin ;; fetchLibrary_body (Response true (Some sampleBody)))
         loadedWorld = false /\
  map data_filter
      (filtersContainer
         (page (after (refreshLibrary (Response true (Some sampleBody)))
                      loadedWorld))) =
    ["all"; "kayu"; "batu"; "kayu"; "batu"].
Proof. repeat split; reflexivity. Qed.

(** ** What no load, filter or upsert writes *)

Lemma frame_refl (w : World) : frame w w.
Proof. now repeat split. Qed.

Lemma frame_trans (w1 w2 w3 : World) : frame w1 w2 -> frame w2 w3 -> frame w1 w3.
Proof.
  unfold frame. intros (a1 & a2 & a3 & a4 & a5 & a6) (b1 & b2 & b3 & b4 & b5 & b6).
  repeat split; congruence.
Qed.

Lemma preserves_ret {A} (a : A) : preserves (ret a).
Proof. intros w. apply frame_refl. Qed.

Lemma preserves_raise {A} (e : exn) : preserves (@raise A e).
Proof. intros w. apply frame_refl. Qed.

Lemma preserves_lift {A} (r : res A) : preserves (lift r).
Proof. intros w. apply frame_refl. Qed.

Lemma preserves_read {A} (f : World -> A) : preserves (read f).
Proof. intros w. apply frame_refl. Qed.

Lemma preserves_bind {A B} (m : M A) (k : A -> M B) :
  preserves m -> (forall a, preserves (k a)) -> preserves (bind m k).
Proof.
  intros Hm Hk w. unfold bind. specialize (Hm w).
  destruct (m w) as [[a|e] w1]; cbn [snd] in *; [|exact Hm].
  eapply frame_trans; [exact Hm | apply Hk].
Qed.

Lemma preserves_try_catch {A} (m : M A) (h : exn -> M A) :
  preserves m -> (forall e, preserves (h e)) -> preserves (try_catch m h).
Proof.
  intros Hm Hh w. unfold try_catch. specialize (Hm w).
  destruct (m w) as [[a|e] w1]; cbn [snd] in *; [exact Hm|].
  eapply frame_trans; [exact Hm | apply Hh].
Qed.

Lemma preserves_modify (f : World -> World) :
  (forall w, frame w (f w)) -> preserves (modify f).
Proof. intros H w. apply H. Qed.

Ltac frame_modify :=
  apply preserves_modify; intros ?; now repeat split.

(** One step through the syntax of a statement. *)
Ltac frame_step :=
  lazymatch goal with
  | |- preserves (bind _ _) => apply preserves_bind; [|intros ?]
  | |- preserves (try_catch _ _) => apply preserves_try_catch; [|intros ?]
  | |- preserves (ret _) => apply preserves_ret
  | |- preserves (raise _) => apply preserves_raise
  | |- preserves (lift _) => apply preserves_lift
  | |- preserves (read _) => apply preserves_read
  | |- preserves (modify _) => frame_modify
  | |- preserves (if ?c then _ else _) => destruct c
  | |- preserves (match ?c with _ => _ end) => destruct c
  end.

Lemma preserves_renderMaterials : preserves renderMaterials.
Proof. unfold renderMaterials, hideLoading. repeat frame_step. Qed.

Lemma preserves_applyFilters : preserves applyFilters.
Proof.
  unfold applyFilters. repeat frame_step. apply preserves_renderMaterials.
Qed.

Lemma preserves_generateFilterTags : preserves generateFilterTags.
Proof. unfold generateFilterTags. repeat frame_step. Qed.

Lemma preserves_fetchLibrary (o : FetchOutcome) : preserves (fetchLibrary o).
Proof.
  unfold fetchLibrary, fetchLibrary_begin, fetchLibrary_body, fetchLibrary_catch,
    showLoading, showError, console_error.
  repeat frame_step;
    first [ apply preserves_generateFilterTags | apply preserves_renderMaterials ].
Qed.



(** ** Load failures (C6, C7) *)

(** A load is its synchronous start followed by its resumption. *)
Lemma fetchLibrary_resumes (o : FetchOutcome) (w : World) :
  fetchLibrary o w = fetchLibrary_resume o (snd (fetchLibrary_begin w)).
Proof. reflexivity. Qed.




(** C6, amended: a load that fails at the request, at the status check, in
    parsing the body, or on a [null] body, leaves [materials] and
    [filteredMaterials] exactly as they were; and every load, failed or
    not, leaves [activeFilter] and [searchQuery] as they were. *)
Theorem C6_failed_load_keeps_materials (o : FetchOutcome) (w : World) :
  let w' := after (fetchLibrary o) w in
  activeFilter (state w') = activeFilter (state w) /\
  searchQuery (state w') = searchQuery (state w) /\
  (no_catalog o = true ->
   failed (fetchLibrary_begin ;; fetchLibrary_body o) w = true /\
   materials (state w') = materials (state w) /\
   filteredMaterials (state w') = filteredMaterials (state w)).
Proof.
  intros w'. subst w'.
  destruct (preserves_fetchLibrary o w) as (Ha & Hq & _).
  repeat split; try assumption;
    destruct o as [|[] [[]|]]; try discriminate; reflexivity.
Qed.

Lemma C6_witness :
  materials (state (after (fetchLibrary (Response false None)) loadedWorld)) =
  catalog [kayuJati; batuAlam].
Proof.
  exact (proj1 (proj2 (proj2 (proj2 (C6_failed_load_keeps_materials
                                       (Response false None) loadedWorld))
                             eq_refl))).
Defined.

(** C6 as stated fails: the first load of the sample catalog succeeds, the
    refresh that receives [brokenBody] fails in [generateFilterTags], and by
    then [materials] has been replaced. *)
Lemma C6_counterexample :
  failed (fetchLibrary_begin ;; fetchLibrary_body (Response true (Some sampleBody)))
         (initialWorld true false) = false /\
  failed (fetchLibrary_begin ;; fetchLibrary_body (Response true (Some brokenBody)))
         loadedWorld = true /\
  materials (state (after (refreshLibrary (Response true (Some brokenBody)))
                          loadedWorld)) =
    VArray [VObject [("id", VString "z")]] /\
  materials (state (after (refreshLibrary (Response true (Some brokenBody)))
                          loadedWorld)) <>
    materials (state loadedWorld).
Proof. repeat split; try reflexivity. discriminate. Qed.

(** ** Malformed bridge payloads (C5) *)

(** [renderMaterials] never writes to [state]; when it throws, it has only
    hidden the loading indicator. *)
Lemma renderMaterials_state (w : World) :
  state (snd (renderMaterials w)) = state w.
Proof.
  unfold renderMaterials, bind, hideLoading, read, modify, lift. cbn.
  destruct (List.length _ =? 0)%nat; [reflexivity|].
  destruct (mapM createMaterialCard _); reflexivity.
Qed.









(** ** The filtered list as a function of the state (C1) *)

Lemma applyFilters_recomputed (w w' : World) :
  applyFilters w = (Ok tt, w') -> recomputed (state w').
Proof.
  unfold applyFilters, bind, read, lift, modify.
  destruct (filterPipeline _ _ _) as [l|e] eqn:E; [|discriminate].
  intros H.
  pose proof (renderMaterials_state
                (on_state (set_filteredMaterials l) w)) as Hs.
  rewrite H in Hs. cbn [snd] in Hs. unfold recomputed. rewrite Hs.
  exact E.
Qed.

(** Every operation that ends in [applyFilters] leaves the filtered list
    recomputed, whenever it returns: filter selection, the debounced search
    update, the Escape key and the bridge upsert. *)
Lemma setActiveFilter_recomputed (f : string) (w w' : World) :
  setActiveFilter f w = (Ok tt, w') -> recomputed (state w').
Proof. unfold setActiveFilter, bind, modify. apply applyFilters_recomputed. Qed.

Lemma onSearchInput_recomputed (v : string) (w w' : World) :
  onSearchInput v w = (Ok tt, w') -> recomputed (state w').
Proof. unfold onSearchInput, bind, modify. apply applyFilters_recomputed. Qed.

Lemma onEscape_recomputed (w w' : World) :
  onEscape w = (Ok tt, w') -> recomputed (state w').
Proof. unfold onEscape, bind, modify. apply applyFilters_recomputed. Qed.

Lemma updateMaterial_recomputed (parsed : option value) (w w' : World) :
  updateMaterial_body parsed w = (Ok tt, w') -> recomputed (state w').
Proof.
  unfold updateMaterial_body, bind, ret, raise, read, lift, modify.
  destruct parsed as [material|]; [|discriminate].
  destruct (array_findIndex _ _) as [index|e]; [|discriminate].
  destruct (negb _); apply applyFilters_recomputed.
Qed.

(** C1, at a refresh: with "kayu" selected the filtered list is the one
    "kayu" material; a refresh that succeeds keeps "kayu" selected and its
    control active, yet stores and draws both materials, where recomputing
    the pipeline from the state it leaves gives the one material. *)
Theorem C1_refresh_skips_recomputation :
  let w := after (refreshLibrary (Response true (Some sampleBody))) kayuSelected in
  recomputed (state kayuSelected) /\
  failed (fetchLibrary_begin ;; fetchLibrary_body (Response true (Some sampleBody)))
         kayuSelected = false /\
  activeFilter (state w) = "kayu" /\
  filteredMaterials (state w) = map to_value [kayuJati; batuAlam] /\
  materialsGrid (page w) = GridCards [cardOf kayuJati; cardOf batuAlam] /\
  filterPipeline (materials (state w)) (activeFilter (state w))
                 (searchQuery (state w)) = Ok (map to_value [kayuJati]) /\
  ~ recomputed (state w).
Proof.
  cbv zeta. repeat split; try reflexivity.
  unfold recomputed. intros H. vm_compute in H. discriminate H.
Qed.

(** ** A successful load, in general *)

(** A load that receives a well-formed catalog [M] (no [last_sync]) returns,
    replaces [materials] by [M], stores and draws all of [M] whatever
    [activeFilter] and [searchQuery] are, and inserts the controls of the
    categories of [M] after the "all" control, in front of the controls
    already there. *)
Lemma fetchLibrary_catalog
      (w : World) (M : list Material) (b : FilterButton) (bar : list FilterButton) :
  filtersContainer (page w) = b :: bar ->
  data_filter b = "all" ->
  fetchLibrary (Response true (Some (VObject [("materials", catalog M)]))) w =
  (Ok tt,
   on_state (set_isLoading false)
     (on_page (rendered M)
        (on_page (set_filtersContainer
                    (b :: map filterButton (Spec.categories M) ++ bar))
           (on_state (set_filteredMaterials (map to_value M))
              (on_state (set_materials (catalog M))
                 (on_page (set_loadingDisplay DisplayFlex)
                    (on_state (set_isLoading true) w))))))).
Proof.
  intros Hbar Hall.
  unfold fetchLibrary, try_catch, fetchLibrary_begin, fetchLibrary_body,
    showLoading, bind, ret, lift, read, modify.
  cbn [get lookup String.eqb Ascii.eqb Bool.eqb truthy catalog spread
       state on_state set_materials materials].
  change (VArray (map to_value M)) with (catalog M).
  erewrite (generateFilterTags_catalog _ M b bar);
    [|reflexivity | exact Hbar | exact Hall].
  rewrite (renderMaterials_catalog _ M) by reflexivity.
  reflexivity.
Qed.

(** After such a load the filtered list is recomputed only if the pipeline
    keeps every material of [M]. *)
Lemma load_recomputed_iff
      (w : World) (M : list Material) (b : FilterButton) (bar : list FilterButton) :
  filtersContainer (page w) = b :: bar ->
  data_filter b = "all" ->
  let w' := after (fetchLibrary
                     (Response true (Some (VObject [("materials", catalog M)]))))
                  w in
  recomputed (state w') <->
  Spec.filtered M (activeFilter (state w)) (searchQuery (state w)) = M.
Proof.
  intros Hbar Hall w'. subst w'. unfold after.
  rewrite (fetchLibrary_catalog w M b bar Hbar Hall).
  unfold recomputed.
  cbn [snd state on_state on_page set_isLoading set_filteredMaterials
           set_materials materials filteredMaterials activeFilter searchQuery].
  rewrite filterPipeline_catalog. split.
  - intros [= H]. now apply catalog_inj.
  - intros ->. reflexivity.
Qed.

Lemma rendered_filtersContainer (L : list Material) (p : Page) :
  filtersContainer (rendered L p) = filtersContainer p.
Proof. destruct L; reflexivity. Qed.

(** Two loads of the same catalog in a row leave every derived control
    twice in the filter bar. *)
Lemma reload_doubles_controls
      (w : World) (M : list Material) (b : FilterButton) (bar : list FilterButton) :
  filtersContainer (page w) = b :: bar ->
  data_filter b = "all" ->
  let o := Response true (Some (VObject [("materials", catalog M)])) in
  filtersContainer (page (after (refreshLibrary o) (after (fetchLibrary o) w))) =
  b :: map filterButton (Spec.categories M)
    ++ map filterButton (Spec.categories M) ++ bar.
Proof.
  intros Hbar Hall o. subst o. unfold after, refreshLibrary.
  rewrite (fetchLibrary_catalog w M b bar Hbar Hall). cbn [snd].
  rewrite (fetchLibrary_catalog _ M b
             (map filterButton (Spec.categories M) ++ bar));
    [|cbn [page on_state on_page]; now rewrite rendered_filtersContainer
     |exact Hall].
  cbn [snd page on_state on_page]. now rewrite rendered_filtersContainer.
Qed.

(** * Further properties of the controller *)

(** ** Rendering *)

Lemma mapM_length {A B} (f : A -> res B) (l : list A) (r : list B) :
  mapM f l = Ok r -> List.length r = List.length l.
Proof.
  revert r. induction l as [|x l IH]; intros r; cbn.
  - now intros [= <-].
  - destruct (f x) as [y|e]; cbn; [|discriminate].
    destruct (mapM f l) as [r'|e]; cbn; [|discriminate].
    intros [= <-]. cbn. f_equal. now apply IH.
Qed.

Lemma mapM_interpolate (l r : list value) :
  mapM interpolate l = Ok r -> r = l /\ existsb toString_throws l = false.
Proof.
  revert r. induction l as [|x l IH]; intros r; cbn.
  - now intros [= <-].
  - unfold interpolate at 1. destruct (toString_throws x); cbn; [discriminate|].
    destruct (mapM interpolate l) as [r'|e]; cbn; [|discriminate].
    intros [= <-]. destruct (IH r' eq_refl) as [-> H]. now split.
Qed.

Lemma mapM_interpolate_primitive (l : list value) :
  forallb primitive l = true -> mapM interpolate l = Ok l.
Proof.
  induction l as [|x l IH]; cbn; [reflexivity|].
  intros H. apply andb_true_iff in H as [Hx Hl].
  rewrite (IH Hl). destruct x; cbn in *; try reflexivity; discriminate.
Qed.

Lemma interpolate_primitive (v : value) :
  primitive v = true -> interpolate v = Ok v.
Proof. destruct v; cbn; try reflexivity; discriminate. Qed.

Lemma renderMaterials_empty (w : World) :
  filteredMaterials (state w) = [] ->
  renderMaterials w =
  (Ok tt,
   on_page (set_materialCount 0)
     (on_page (set_materialsGrid GridEmptyState)
        (on_page (set_loadingDisplay DisplayNone) w))).
Proof.
  intros H. unfold renderMaterials, bind, hideLoading, read, modify, lift.
  cbn [state on_page]. now rewrite H.
Qed.



(** X2: a card never shows more than three tags: whenever
    [createMaterialCard] returns, the tags of the material are an array and
    the card carries its first three entries (all of them when there are
    fewer), in their order. *)
Theorem X2_card_shows_first_three_tags (material : value) (c : Card) :
  createMaterialCard material = Ok c ->
  exists items,
    get material "tags" = Ok (VArray items) /\
    card_tags c = firstn 3 items /\
    (List.length (card_tags c) <= 3)%nat /\
    (List.length items <= 3 -> card_tags c = items)%nat.
Proof.
  unfold createMaterialCard.
  destruct (get material "tags") as [tags|e]; cbn [rbind]; [|discriminate].
  destruct tags as [| | | | s |items|props]; cbn [slice3 rbind array_map];
    try discriminate.
  destruct (mapM interpolate (firstn 3 items)) as [r|e] eqn:E; cbn [rbind];
    [|discriminate].
  apply mapM_interpolate in E as [-> _].
  destruct (rbind (get material "id") interpolate) as [i|e]; cbn [rbind];
    [|discriminate].
  destruct (rbind (get material "image_url") interpolate) as [u|e];
    cbn [rbind]; [|discriminate].
  destruct (rbind (get material "title") interpolate) as [t|e]; cbn [rbind];
    [|discriminate].
  destruct (rbind (get material "description") interpolate) as [d|e];
    cbn [rbind]; [|discriminate].
  destruct (rbind (get material "board") interpolate) as [b|e]; cbn [rbind];
    [|discriminate].
  intros H. assert (c = mkCard i u t d (firstn 3 items) b) as -> by congruence.
  exists items. cbn [card_tags].
  split; [reflexivity|]. split; [reflexivity|]. split.
  - apply firstn_le_length.
  - intros Hlen. now apply firstn_all2.
Qed.

Lemma X2_witness :
  exists items,
    get manyTags "tags" = Ok (VArray items) /\
    map VString ["kayu"; "jati"; "tua"] = firstn 3 items.
Proof.
  destruct (X2_card_shows_first_three_tags
              manyTags
              (mkCard VUndefined VUndefined VUndefined VUndefined
                      (map VString ["kayu"; "jati"; "tua"]) VUndefined)
              eq_refl) as [items [H1 [H2 _]]].
  exists items. split; [exact H1 | exact H2].
Defined.

(** X3: the tags are the one field a card cannot do without.  A material
    whose [tags] is not an array makes [createMaterialCard] throw, whatever
    else it holds; an object whose [tags] is an array of strings, numbers,
    booleans or nulls is drawn even when [id], [image_url], [title],
    [description] and [board] are such values of any kind or missing
    (missing fields are drawn as [undefined]). *)
Theorem X3_card_needs_only_tags :
  (forall material tags,
      get material "tags" = Ok tags -> is_array tags = false ->
      createMaterialCard material = Throw TypeError) /\
  (forall props items,
      lookup "tags" props = VArray items ->
      forallb primitive (firstn 3 items) = true ->
      forallb (fun k => primitive (lookup k props))
              ["id"; "image_url"; "title"; "description"; "board"] = true ->
      createMaterialCard (VObject props) =
      Ok (mkCard (lookup "id" props) (lookup "image_url" props)
                 (lookup "title" props) (lookup "description" props)
                 (firstn 3 items) (lookup "board" props))).
Proof.
  split.
  - intros material tags Hget Harr. unfold createMaterialCard.
    rewrite Hget. cbn [rbind].
    destruct tags as [| | | | s |items|props]; try reflexivity.
    discriminate Harr.
  - intros props items Htags Hitems Hfields. unfold createMaterialCard.
    cbn [get rbind]. rewrite Htags. cbn [slice3 rbind array_map].
    rewrite (mapM_interpolate_primitive _ Hitems). cbn [rbind].
    cbn [forallb] in Hfields.
    repeat (apply andb_true_iff in Hfields as [?H Hfields]).
    now rewrite !interpolate_primitive by assumption.
Qed.

Lemma X3_witness :
  createMaterialCard manyTags =
  Ok (mkCard VUndefined VUndefined VUndefined VUndefined
             (map VString ["kayu"; "jati"; "tua"]) VUndefined) /\
  createMaterialCard bareIdPayload = Throw TypeError.
Proof.
  destruct X3_card_needs_only_tags as [Hthrow Hdraw]. split.
  - exact (Hdraw [("tags", VArray (map VString ["kayu"; "jati"; "tua"; "gelap"]))]
                 (map VString ["kayu"; "jati"; "tua"; "gelap"])
                 eq_refl eq_refl eq_refl).
  - exact (Hthrow bareIdPayload VUndefined eq_refl eq_refl).
Defined.

(** ** The filter bar *)

Lemma Subseq_filter {A} (p : A -> bool) (l : list A) : Subseq (filter p l) l.
Proof.
  induction l as [|x l IH]; cbn; [constructor|].
  destruct (p x); now constructor.
Qed.

Lemma Subseq_length {A} (l l' : list A) :
  Subseq l l' -> (List.length l <= List.length l')%nat.
Proof. induction 1; cbn; lia. Qed.

Lemma Subseq_refl {A} (l : list A) : Subseq l l.
Proof. induction l; now constructor. Qed.

Lemma Subseq_trans {A} (l1 l2 l3 : list A) :
  Subseq l1 l2 -> Subseq l2 l3 -> Subseq l1 l3.
Proof.
  intros H12 H23. revert l1 H12.
  induction H23 as [|x l2 l3 H IH|x l2 l3 H IH]; intros l1 H12.
  - exact H12.
  - constructor. now apply IH.
  - inversion H12; subst; constructor; now apply IH.
Qed.

(** X4: from a well-formed catalog [generateFilterTags] derives at most the
    five recognized categories, each once however many materials carry it,
    in allow-list order; a category is derived exactly when it is on the
    allow-list and is, letter for letter, a tag of some material. *)
Theorem X4_categories_from_allow_list (M : list Material) :
  exists cats,
    categoryTags (catalog M) = Ok cats /\
    NoDup cats /\
    Subseq cats mainCategories /\
    (List.length cats <= 5)%nat /\
    forall c, In c cats <->
              In c mainCategories /\ exists m, In m M /\ In c (tags m).
Proof.
  exists (Spec.categories M). split; [apply categoryTags_catalog|].
  unfold Spec.categories. split.
  - apply NoDup_filter. unfold mainCategories.
    repeat constructor; cbn; intuition discriminate.
  - split; [apply Subseq_filter|]. split.
    + apply (Subseq_length _ mainCategories), Subseq_filter.
    + intros c. rewrite filter_In, existsb_exists.
      unfold Spec.hasTag. split.
      * intros [Hc [m [Hm Ht]]]. split; [exact Hc|]. exists m.
        split; [exact Hm|]. apply existsb_exists in Ht as [t [Ht E]].
        apply String.eqb_eq in E. now subst.
      * intros [Hc [m [Hm Ht]]]. split; [exact Hc|]. exists m.
        split; [exact Hm|]. apply existsb_exists. exists c.
        split; [exact Ht | apply String.eqb_refl].
Qed.

Lemma insertAfterAll_none (new bar : list FilterButton) :
  (forall b, In b bar -> data_filter b <> "all") ->
  insertAfterAll new bar = None.
Proof.
  induction bar as [|b bar IH]; intros H; cbn; [reflexivity|].
  destruct (data_filter b =? "all") eqn:E.
  - apply String.eqb_eq in E. now destruct (H b (or_introl eq_refl)).
  - rewrite IH; [reflexivity|]. intros b' Hb'. apply H. now right.
Qed.

Lemma generateFilterTags_no_all (w : World) (M : list Material) :
  materials (state w) = catalog M ->
  (forall b, In b (filtersContainer (page w)) -> data_filter b <> "all") ->
  generateFilterTags w = (Throw TypeError, w).
Proof.
  intros HM Hbar. unfold generateFilterTags, bind, read, lift.
  rewrite HM, categoryTags_catalog. cbn [rbind].
  now rewrite (insertAfterAll_none _ _ Hbar).
Qed.

(** X5: the category controls hang on the "all" control.  On a page whose
    filter bar has no control with [data-filter] "all",
    [generateFilterTags] throws and leaves the world as it was, and so a
    load of a well-formed catalog ends in the error placeholder, with
    [materials] already replaced and nothing drawn. *)
Theorem X5_no_all_control_fails_the_load (w : World) (M : list Material) :
  (forall b, In b (filtersContainer (page w)) -> data_filter b <> "all") ->
  (materials (state w) = catalog M ->
   generateFilterTags w = (Throw TypeError, w)) /\
  let o := Response true (Some (VObject [("materials", catalog M)])) in
  failed (fetchLibrary_begin ;; fetchLibrary_body o) w = true /\
  materials (state (after (fetchLibrary o) w)) = catalog M /\
  materialsGrid (page (after (fetchLibrary o) w)) = GridError loadErrorMessage /\
  filtersContainer (page (after (fetchLibrary o) w)) = filtersContainer (page w).
Proof.
  intros Hbar. split.
  - intros HM. now apply (generateFilterTags_no_all w M).
  - cbv zeta.
    assert (Hrun : (fetchLibrary_begin ;;
                    fetchLibrary_body
                      (Response true (Some (VObject [("materials", catalog M)]))))
                     w =
                   (Throw TypeError,
                    on_state (set_filteredMaterials (map to_value M))
                      (on_state (set_materials (catalog M))
                         (on_page (set_loadingDisplay DisplayFlex)
                            (on_state (set_isLoading true) w))))).
    { unfold fetchLibrary_begin, fetchLibrary_body, showLoading, bind, ret,
        lift, read, modify.
      cbn [get lookup String.eqb Ascii.eqb Bool.eqb truthy catalog spread
           state on_state set_materials materials].
      change (VArray (map to_value M)) with (catalog M).
      erewrite (generateFilterTags_no_all _ M); [reflexivity|reflexivity|].
      exact Hbar. }
    unfold failed, after, fetchLibrary, try_catch. rewrite Hrun.
    repeat split.
Qed.

Lemma X5_witness :
  materialsGrid
    (page (after (fetchLibrary (Response true (Some sampleBody))) barWithoutAll)) =
  GridError loadErrorMessage.
Proof.
  refine (proj1 (proj2 (proj2 (proj2
            (X5_no_all_control_fails_the_load
               barWithoutAll [kayuJati; batuAlam] _))))).
  intros b [<-|[]]. discriminate.
Defined.

(** ** Selecting a filter *)

Lemma renderMaterials_filtersContainer (w : World) :
  filtersContainer (page (snd (renderMaterials w))) = filtersContainer (page w).
Proof.
  unfold renderMaterials, bind, hideLoading, read, modify, lift. cbn.
  destruct (List.length _ =? 0)%nat; [reflexivity|].
  destruct (mapM createMaterialCard _); reflexivity.
Qed.

Lemma applyFilters_filtersContainer (w : World) :
  filtersContainer (page (snd (applyFilters w))) = filtersContainer (page w).
Proof.
  unfold applyFilters, bind, read, lift, modify.
  destruct (filterPipeline _ _ _) as [l|e]; [|reflexivity].
  now rewrite renderMaterials_filtersContainer.
Qed.

Lemma activeCount_toggle (f : string) (bar : list FilterButton) :
  activeCount (map (toggleActive f) bar) =
  count_occ string_dec (map data_filter bar) f.
Proof.
  unfold activeCount. induction bar as [|b bar IH]; [reflexivity|].
  cbn [map filter count_occ toggleActive active].
  destruct (string_dec (data_filter b) f) as [->|Hne].
  - rewrite String.eqb_refl. cbn. now rewrite IH.
  - apply String.eqb_neq in Hne. now rewrite Hne.
Qed.

(** X6: whatever the materials are, and even when the filtering that
    follows throws, [setActiveFilter f] leaves [activeFilter] at [f] and
    makes active exactly the controls whose [data-filter] is [f], keeping
    the controls and their order; so exactly one control is active when the
    bar has [f] once, and none when it has no control for [f]. *)
Theorem X6_active_control_follows_filter (f : string) (w : World) :
  let w' := after (setActiveFilter f) w in
  let bar := filtersContainer (page w) in
  let bar' := filtersContainer (page w') in
  activeFilter (state w') = f /\
  map data_filter bar' = map data_filter bar /\
  (forall b, In b bar' -> active b = (data_filter b =? f)) /\
  activeCount bar' = count_occ string_dec (map data_filter bar) f /\
  (NoDup (map data_filter bar) -> In f (map data_filter bar) ->
   activeCount bar' = 1%nat) /\
  (~ In f (map data_filter bar) -> activeCount bar' = 0%nat).
Proof.
  cbv zeta. unfold after, setActiveFilter, bind, modify.
  set (w1 := on_page _ (on_state (set_activeFilter f) w)).
  assert (Hbar : filtersContainer (page (snd (applyFilters w1))) =
                 map (toggleActive f) (filtersContainer (page w))).
  { rewrite applyFilters_filtersContainer. reflexivity. }
  destruct (preserves_applyFilters w1) as (Ha & _).
  rewrite Hbar. split; [exact Ha|]. split.
  { rewrite map_map. reflexivity. }
  split.
  { intros b Hb. apply in_map_iff in Hb as [b0 [<- _]]. reflexivity. }
  rewrite activeCount_toggle. split; [reflexivity|]. split.
  - intros Hnd Hin. apply NoDup_count_occ' with (decA := string_dec) in Hin;
      assumption.
  - intros Hnot. now apply count_occ_not_In.
Qed.

Lemma X6_witness :
  activeCount (filtersContainer (page kayuSelected)) = 1%nat.
Proof.
  refine (proj1 (proj2 (proj2 (proj2 (proj2
            (X6_active_control_follows_filter "kayu" loadedWorld))))) _ _).
  - repeat constructor; cbn; intuition discriminate.
  - cbn. tauto.
Defined.

Lemma toggleActive_twice (f g : string) (bar : list FilterButton) :
  map (toggleActive g) (map (toggleActive f) bar) = map (toggleActive g) bar.
Proof. rewrite map_map. apply map_ext. intros b. reflexivity. Qed.

Lemma page_after_two_filters
      (L1 L2 : list Material) (B1 B2 : list FilterButton) (p : Page) :
  rendered L2 (set_filtersContainer B2 (rendered L1 (set_filtersContainer B1 p))) =
  rendered L2 (set_filtersContainer B2 p).
Proof. destruct L1, L2, p; reflexivity. Qed.

(** [setActiveFilter] on a well-formed catalog. *)
Lemma setActiveFilter_catalog (f : string) (w : World) (M : list Material) :
  materials (state w) = catalog M ->
  setActiveFilter f w =
  (Ok tt,
   on_page (rendered (Spec.filtered M f (searchQuery (state w))))
     (on_state
        (set_filteredMaterials
           (map to_value (Spec.filtered M f (searchQuery (state w)))))
        (on_page (fun p => set_filtersContainer
                             (map (toggleActive f) (filtersContainer p)) p)
           (on_state (set_activeFilter f) w)))).
Proof.
  intros HM. unfold setActiveFilter, bind, modify.
  now rewrite (applyFilters_catalog _ M) by exact HM.
Qed.

(** X7: on a well-formed catalog the filter selected last decides
    everything: selecting [g] after [f] leaves the same world as selecting
    [g] at once (so selecting a filter twice changes nothing more), and
    selecting "all" under a blank search puts every material back in
    [filteredMaterials]. *)
Theorem X7_last_filter_wins (f g : string) (w : World) (M : list Material) :
  materials (state w) = catalog M ->
  after (setActiveFilter g) (after (setActiveFilter f) w) =
    after (setActiveFilter g) w /\
  (Str.trim (searchQuery (state w)) = "" ->
   filteredMaterials (state (after (setActiveFilter "all")
                                   (after (setActiveFilter f) w))) =
   map to_value M).
Proof.
  intros HM. unfold after.
  rewrite (setActiveFilter_catalog f w M HM). cbn [snd].
  rewrite (setActiveFilter_catalog g _ M) by exact HM.
  rewrite (setActiveFilter_catalog "all" _ M) by exact HM.
  rewrite (setActiveFilter_catalog g w M HM). cbn [snd]. split.
  - destruct w as [s p h]. unfold on_page, on_state.
    cbn [state page sketchup set_activeFilter set_filteredMaterials
         searchQuery materials filteredMaterials activeFilter isLoading].
    f_equal. rewrite rendered_filtersContainer.
    change (filtersContainer
              (set_filtersContainer (map (toggleActive f) (filtersContainer p))
                                    p))
      with (map (toggleActive f) (filtersContainer p)).
    rewrite toggleActive_twice. apply page_after_two_filters.
  - intros Hq.
    cbn [state on_state on_page set_filteredMaterials filteredMaterials
         set_activeFilter searchQuery].
    unfold Spec.filtered, Spec.bySearch, Spec.byTag, Str.nonempty.
    now rewrite Hq.
Qed.

Lemma X7_witness :
  after (setActiveFilter "batu") kayuSelected =
  after (setActiveFilter "batu") loadedWorld.
Proof.
  exact (proj1 (X7_last_filter_wins "kayu" "batu" loadedWorld
                                    [kayuJati; batuAlam] eq_refl)).
Defined.

(** ** The pipeline on any materials *)

Lemma filterM_Subseq {A} (p : A -> res bool) (l r : list A) :
  filterM p l = Ok r -> Subseq r l.
Proof.
  revert r. induction l as [|x l IH]; intros r; cbn.
  - intros [= <-]. constructor.
  - destruct (p x) as [b|e]; cbn; [|discriminate].
    destruct (filterM p l) as [r'|e]; cbn; [|discriminate].
    intros [= <-]. destruct b; constructor; now apply IH.
Qed.

Lemma filterPipeline_Subseq (ms : value) (f q : string) (l r : list value) :
  spread ms = Ok l -> filterPipeline ms f q = Ok r -> Subseq r l.
Proof.
  unfold filterPipeline. intros ->. cbn [rbind].
  destruct (negb (f =? "all")).
  - destruct (filterM (tagFilter f) l) as [l1|e] eqn:E1; cbn [rbind];
      [|discriminate].
    apply filterM_Subseq in E1.
    destruct (Str.nonempty (Str.trim q)).
    + intros H. apply filterM_Subseq in H. now apply (Subseq_trans _ l1).
    + now intros [= <-].
  - cbn [rbind]. destruct (Str.nonempty (Str.trim q)).
    + apply filterM_Subseq.
    + intros [= <-]. apply Subseq_refl.
Qed.

(** X8: filtering only ever leaves materials out.  Whatever [materials]
    holds, well-formed or not, whenever [applyFilters] returns the list it
    stored is [materials] with some entries left out: nothing added,
    nothing repeated, nothing reordered, and never longer. *)
Theorem X8_filtered_is_subsequence (w w' : World) (items : list value) :
  materials (state w) = VArray items ->
  applyFilters w = (Ok tt, w') ->
  Subseq (filteredMaterials (state w')) items /\
  (List.length (filteredMaterials (state w')) <= List.length items)%nat /\
  materials (state w') = VArray items.
Proof.
  intros HM Hrun.
  pose proof (applyFilters_recomputed w w' Hrun) as Hrec.
  assert (Hm : materials (state w') = VArray items).
  { unfold applyFilters, bind, read, lift, modify in Hrun.
    destruct (filterPipeline _ _ _) as [l|e]; [|discriminate].
    pose proof (renderMaterials_state
                  (on_state (set_filteredMaterials l) w)) as Hs.
    rewrite Hrun in Hs. cbn [snd] in Hs. rewrite Hs. exact HM. }
  unfold recomputed in Hrec. rewrite Hm in Hrec.
  assert (Hsub : Subseq (filteredMaterials (state w')) items)
    by now apply (filterPipeline_Subseq (VArray items) _ _ items _ eq_refl Hrec).
  split; [exact Hsub|]. split; [now apply Subseq_length | exact Hm].
Qed.

Lemma X8_witness :
  Subseq (filteredMaterials (state (snd (applyFilters kayuSelected))))
         (map to_value [kayuJati; batuAlam]).
Proof.
  exact (proj1 (X8_filtered_is_subsequence
                  kayuSelected (snd (applyFilters kayuSelected))
                  (map to_value [kayuJati; batuAlam]) eq_refl eq_refl)).
Defined.

(** ** Search queries *)

Lemma string_app_assoc (a b c : string) :
  ((a ++ b) ++ c)%string = (a ++ b ++ c)%string.
Proof. induction a as [|x a IH]; cbn; [reflexivity | now rewrite IH]. Qed.

Lemma includes_trans (a b c : string) :
  Str.includes a b = true -> Str.includes b c = true ->
  Str.includes a c = true.
Proof.
  rewrite !includes_spec. intros [x [y ->]] [u [v ->]].
  exists (u ++ x)%string, (y ++ v)%string.
  now rewrite !string_app_assoc.
Qed.

Lemma matches_narrows (lower : string -> string) (q q' : string) (m : Material) :
  Str.includes (lower q) (lower q') = true ->
  SpecBy.matches lower q' m = true -> SpecBy.matches lower q m = true.
Proof.
  intros Hq.
  unfold SpecBy.matches, SpecBy.occursIn. rewrite !orb_true_iff.
  intros [[[H|H]|H]|H].
  - left; left; left. now apply (includes_trans _ _ _ Hq).
  - left; left; right. now apply (includes_trans _ _ _ Hq).
  - left; right. apply existsb_exists in H as [t [Ht H]].
    apply existsb_exists. exists t. split; [exact Ht|].
    now apply (includes_trans _ _ _ Hq).
  - right. now apply (includes_trans _ _ _ Hq).
Qed.

Lemma Subseq_filter_weaker {A} (p q : A -> bool) (l : list A) :
  (forall x, p x = true -> q x = true) ->
  Subseq (filter p l) (filter q l).
Proof.
  intros H. induction l as [|x l IH]; cbn; [constructor|].
  destruct (p x) eqn:Ep.
  - rewrite (H x Ep). now constructor.
  - destruct (q x); [constructor|]; exact IH.
Qed.

(** X9: a query finds no more than a query its lowercase contains.
    Whatever the runtime's [toLowerCase] and [trim] are: on a well-formed
    catalog, if the lowercased [q] occurs in the lowercased [q'] and [q']
    is not blank, then under the same filter the materials found for [q']
    are among those found for [q], in the same order. *)
Theorem X9_longer_query_narrows
        (lower trim : string -> string)
        (M : list Material) (f q q' : string) :
  Str.includes (lower q) (lower q') = true ->
  trim q' <> "" ->
  exists r r',
    filterPipelineBy lower trim (catalog M) f q = Ok (map to_value r) /\
    filterPipelineBy lower trim (catalog M) f q' = Ok (map to_value r') /\
    Subseq r' r.
Proof.
  intros Hinc Hq'.
  exists (SpecBy.filtered lower trim M f q), (SpecBy.filtered lower trim M f q').
  split; [apply filterPipelineBy_catalog|].
  split; [apply filterPipelineBy_catalog|].
  unfold SpecBy.filtered, SpecBy.bySearch, Str.nonempty.
  apply String.eqb_neq in Hq'. rewrite Hq'. cbn [negb].
  destruct (negb (trim q =? "")).
  - apply Subseq_filter_weaker. intros m. now apply matches_narrows.
  - apply Subseq_filter.
Qed.

Lemma X9_witness :
  exists r r',
    filterPipelineBy Str.toLowerCase Str.trim
                     (catalog [kayuJati; batuAlam]) "all" "A" =
      Ok (map to_value r) /\
    filterPipelineBy Str.toLowerCase Str.trim
                     (catalog [kayuJati; batuAlam]) "all" "batu a" =
      Ok (map to_value r') /\
    Subseq r' r.
Proof.
  refine (X9_longer_query_narrows Str.toLowerCase Str.trim
                                  [kayuJati; batuAlam] "all" "A" "batu a" _ _);
    [reflexivity | vm_compute; discriminate].
Defined.

(** ** Material actions *)

(** X11: with the host capability present, applying a material the
    well-formed catalog has makes exactly one call to the host, carrying
    the whole of the first material with that id, shows no notification
    and leaves [state] alone. *)
Theorem X11_apply_delegates_to_host (w : World) (M : list Material) (i : string) :
  materials (state w) = catalog M ->
  sketchup w = true ->
  Spec.hasId i M = true ->
  exists m,
    find (fun m => id m =? i) M = Some m /\
    fst (applyMaterial (VString i) w) = Ok tt /\
    hostCalls (page (after (applyMaterial (VString i)) w)) =
      hostCalls (page w) ++ [to_value m] /\
    toastContainer (page (after (applyMaterial (VString i)) w)) =
      toastContainer (page w) /\
    state (after (applyMaterial (VString i)) w) = state w.
Proof.
  intros HM Hhost Hid.
  destruct (find (fun m => id m =? i) M) as [m|] eqn:E;
    [|apply find_hasId in E; congruence].
  exists m. split; [reflexivity|].
  unfold after, applyMaterial, bind, read, lift. rewrite HM.
  unfold catalog, array_find. rewrite findM_catalog, E.
  cbn [option_map truthy to_value negb]. unfold console_log, modify.
  cbn [sketchup on_page]. rewrite Hhost. repeat split.
Qed.

Lemma X11_witness :
  hostCalls (page (after (applyMaterial (VString "b"))
                         (mkWorld (state loadedWorld) (page loadedWorld) true))) =
  [to_value batuAlam].
Proof.
  destruct (X11_apply_delegates_to_host
              (mkWorld (state loadedWorld) (page loadedWorld) true)
              [kayuJati; batuAlam] "b" eq_refl eq_refl eq_refl)
    as [m [Hm [_ [H _]]]].
  cbn in Hm. injection Hm as <-. exact H.
Defined.

(** X12: the actions on one material are read-only.  For any id and any
    world, well-formed or not, returning or throwing, [applyMaterial] and
    [showMaterialDetails] leave [state], the grid, the count and the filter
    bar as they were, and add at most one notification. *)
Theorem X12_material_actions_read_only (materialId : value) (w : World) :
  let unchanged (w' : World) :=
    state w' = state w /\
    materialsGrid (page w') = materialsGrid (page w) /\
    materialCount (page w') = materialCount (page w) /\
    filtersContainer (page w') = filtersContainer (page w) /\
    (toastContainer (page w') = toastContainer (page w) \/
     exists t, toastContainer (page w') = toastContainer (page w) ++ [t]) in
  unchanged (after (applyMaterial materialId) w) /\
  unchanged (after (showMaterialDetails materialId) w).
Proof.
  cbv zeta. unfold after. split.
  - unfold applyMaterial, bind, read, lift, showToast, console_log, modify.
    destruct (array_find _ _) as [[material|]|e]; cbn [snd];
      try (repeat split; solve [now left | right; eexists; reflexivity]).
    destruct (negb (truthy material)); cbn [snd];
      try (repeat split; solve [now left | right; eexists; reflexivity]).
    cbn [sketchup on_page]. destruct (sketchup w); cbn [snd];
      try (repeat split; solve [now left | right; eexists; reflexivity]).
    destruct (rbind (get material "title") interpolate); cbn [snd];
      repeat split; solve [now left | right; eexists; reflexivity].
  - unfold showMaterialDetails, bind, ret, read, lift, showToast, modify.
    destruct (array_find _ _) as [[material|]|e]; cbn [snd];
      try (repeat split; solve [now left | right; eexists; reflexivity]).
    destruct (negb (truthy material)); cbn [snd];
      try (repeat split; solve [now left | right; eexists; reflexivity]).
    destruct (get material "source_url") as [source|e]; cbn [snd];
      try (repeat split; solve [now left | right; eexists; reflexivity]).
    destruct (truthy source); cbn [snd];
      try (repeat split; solve [now left | right; eexists; reflexivity]).
    destruct (rbind (get material "title") interpolate); cbn [snd];
      try (repeat split; solve [now left | right; eexists; reflexivity]).
    destruct (rbind (get material "board") interpolate); cbn [snd];
      repeat split; solve [now left | right; eexists; reflexivity].
Qed.



(** ** Loading *)

Lemma insertAfterAll_nil (bar : list FilterButton) :
  existsb (fun b => data_filter b =? "all") bar = true ->
  insertAfterAll [] bar = Some bar.
Proof.
  induction bar as [|b bar IH]; cbn; [discriminate|].
  destruct (data_filter b =? "all"); cbn; [reflexivity|].
  intros H. now rewrite (IH H).
Qed.

(** X14: a body without a catalog in it loads as the empty catalog.  For
    any parsed body other than [null] whose [materials] is missing or falsy
    (and that has no sync time), on a page that has the "all" control, the
    load returns: [materials] and [filteredMaterials] are empty, the grid
    shows the empty-state placeholder with count 0, no control is added and
    [isLoading] is false. *)
Theorem X14_missing_materials_is_empty_catalog
        (data ms ls : value) (w : World) :
  get data "materials" = Ok ms -> truthy ms = false ->
  get data "last_sync" = Ok ls -> truthy ls = false ->
  existsb (fun b => data_filter b =? "all") (filtersContainer (page w)) = true ->
  fetchLibrary (Response true (Some data)) w =
  (Ok tt,
   on_state (set_isLoading false)
     (on_page (set_materialCount 0)
        (on_page (set_materialsGrid GridEmptyState)
           (on_page (set_loadingDisplay DisplayNone)
              (on_page (set_filtersContainer (filtersContainer (page w)))
                 (on_state (set_filteredMaterials [])
                    (on_state (set_materials (VArray []))
                       (on_page (set_loadingDisplay DisplayFlex)
                          (on_state (set_isLoading true) w))))))))).
Proof.
  intros Hms Hfalsy Hls Hnosync Hall.
  unfold fetchLibrary, try_catch, fetchLibrary_begin, fetchLibrary_body,
    showLoading, bind, ret, lift, read, modify.
  rewrite Hms, Hfalsy, Hls, Hnosync.
  cbn [spread state on_state set_materials materials].
  unfold generateFilterTags, bind, read, lift.
  cbn [state on_state on_page set_filteredMaterials materials page
       filtersContainer set_loadingDisplay set_materials].
  change (categoryTags (VArray [])) with (Ok (@nil string)).
  cbn [map]. rewrite (insertAfterAll_nil _ Hall). unfold modify.
  now rewrite renderMaterials_empty.
Qed.

Lemma X14_witness :
  materialsGrid
    (page (after (fetchLibrary (Response true (Some (VObject []))))
                 (initialWorld true false))) = GridEmptyState.
Proof.
  unfold after.
  rewrite (X14_missing_materials_is_empty_catalog
             (VObject []) VUndefined VUndefined (initialWorld true false)
             eq_refl eq_refl eq_refl eq_refl eq_refl).
  reflexivity.
Defined.

(** X15: a load always comes to an end.  Whatever the response and the
    world, [fetchLibrary] returns without throwing and leaves [isLoading]
    false, after its start had set it and asked for the indicator. *)
Theorem X15_load_always_ends (o : FetchOutcome) (w : World) :
  isLoading (state (after fetchLibrary_begin w)) = true /\
  loadingDisplay (page (after fetchLibrary_begin w)) = DisplayFlex /\
  fst (fetchLibrary o w) = Ok tt /\
  isLoading (state (after (fetchLibrary o) w)) = false /\
  fst (fetchLibrary_resume o w) = Ok tt /\
  isLoading (state (after (fetchLibrary_resume o) w)) = false.
Proof.
  split; [reflexivity|]. split; [reflexivity|].
  assert (H : forall w0,
             fst (fetchLibrary_resume o w0) = Ok tt /\
             isLoading (state (after (fetchLibrary_resume o) w0)) = false).
  { intros w0.
    unfold after, fetchLibrary_resume, try_catch, fetchLibrary_body,
      fetchLibrary_catch, console_error, showError, bind, ret, raise, lift,
      read, modify.
    destruct o as [|[] [data|]]; try (split; reflexivity).
    destruct (get data "materials") as [ms|e]; [|split; reflexivity].
    cbn [state on_state set_materials materials].
    destruct (spread _) as [copy|e]; [|split; reflexivity].
    destruct (get data "last_sync") as [ls|e]; [|split; reflexivity].
    destruct (truthy ls).
    - destruct (interpolate ls) as [d|e]; [|split; reflexivity].
      destruct (generateFilterTags _) as [[[]|e] w1]; [|split; reflexivity].
      destruct (renderMaterials w1) as [[[]|e] w2]; split; reflexivity.
    - destruct (generateFilterTags _) as [[[]|e] w1]; [|split; reflexivity].
      destruct (renderMaterials w1) as [[[]|e] w2]; split; reflexivity. }
  rewrite !fetchLibrary_resumes. unfold after at 1 2.
  rewrite fetchLibrary_resumes.
  destruct (H (snd (fetchLibrary_begin w))) as [H1 H2].
  destruct (H w) as [H3 H4]. repeat split; assumption.
Qed.

(** A load of a well-formed catalog that comes with a sync time. *)
Lemma fetchLibrary_catalog_sync
      (w : World) (M : list Material) (s : string)
      (b : FilterButton) (bar : list FilterButton) :
  filtersContainer (page w) = b :: bar ->
  data_filter b = "all" ->
  s <> "" ->
  fetchLibrary
    (Response true (Some (VObject [("materials", catalog M);
                                   ("last_sync", VString s)]))) w =
  (Ok tt,
   on_state (set_isLoading false)
     (on_page (rendered M)
        (on_page (set_filtersContainer
                    (b :: map filterButton (Spec.categories M) ++ bar))
           (on_page (set_syncTime (VString s))
              (on_state (set_filteredMaterials (map to_value M))
                 (on_state (set_materials (catalog M))
                    (on_page (set_loadingDisplay DisplayFlex)
                       (on_state (set_isLoading true) w)))))))).
Proof.
  intros Hbar Hall Hs.
  unfold fetchLibrary, try_catch, fetchLibrary_begin, fetchLibrary_body,
    showLoading, bind, ret, lift, read, modify.
  cbn [get lookup String.eqb Ascii.eqb Bool.eqb truthy catalog spread
       state on_state set_materials materials interpolate toString_throws].
  unfold Str.nonempty. apply String.eqb_neq in Hs. rewrite Hs. cbn [negb].
  change (VArray (map to_value M)) with (catalog M).
  erewrite (generateFilterTags_catalog _ M b bar);
    [|reflexivity | exact Hbar | exact Hall].
  rewrite (renderMaterials_catalog _ M) by reflexivity.
  reflexivity.
Qed.

Lemma rendered_syncTime (L : list Material) (p : Page) :
  syncTime (rendered L p) = syncTime p.
Proof. destruct L; reflexivity. Qed.

(** X16: the sync time on display changes only when the catalog brings
    one.  A load of a well-formed catalog with a non-empty [last_sync]
    shows that value; a load whose body has no [last_sync] leaves the sync
    time of the load before it on display. *)
Theorem X16_sync_time_kept_without_last_sync
        (w : World) (M : list Material) (s : string)
        (b : FilterButton) (bar : list FilterButton) :
  filtersContainer (page w) = b :: bar ->
  data_filter b = "all" ->
  s <> "" ->
  syncTime
    (page (after (fetchLibrary
                    (Response true (Some (VObject [("materials", catalog M);
                                                   ("last_sync", VString s)]))))
                 w)) = Some (VString s) /\
  syncTime
    (page (after (fetchLibrary
                    (Response true (Some (VObject [("materials", catalog M)]))))
                 w)) = syncTime (page w).
Proof.
  intros Hbar Hall Hs. unfold after.
  rewrite (fetchLibrary_catalog_sync w M s b bar Hbar Hall Hs).
  rewrite (fetchLibrary_catalog w M b bar Hbar Hall).
  cbn [snd page on_state on_page]. now rewrite !rendered_syncTime.
Qed.

Lemma X16_witness :
  syncTime
    (page (after (fetchLibrary
                    (Response true
                       (Some (VObject [("materials", catalog [kayuJati]);
                                       ("last_sync", VString "2024-05-01")]))))
                 (initialWorld true false))) = Some (VString "2024-05-01").
Proof.
  refine (proj1 (X16_sync_time_kept_without_last_sync
                   (initialWorld true false) [kayuJati] "2024-05-01"
                   (mkButton "all" "Semua" true) [] eq_refl eq_refl _)).
  discriminate.
Defined.

Lemma filtered_all_blank (M : list Material) (q : string) :
  Str.trim q = "" -> Spec.filtered M "all" q = M.
Proof.
  intros H. unfold Spec.filtered, Spec.bySearch, Spec.byTag, Str.nonempty.
  now rewrite H.
Qed.

(** X17: a load keeps the filtered list recomputed when nothing is
    selected.  With [activeFilter] "all" and a blank [searchQuery], as at
    the first load of the page, a load of a well-formed catalog leaves
    [filteredMaterials] equal to what the pipeline computes from the new
    state, all of the catalog, with its size as the count. *)
Theorem X17_load_without_selection_is_recomputed
        (w : World) (M : list Material)
        (b : FilterButton) (bar : list FilterButton) :
  filtersContainer (page w) = b :: bar ->
  data_filter b = "all" ->
  activeFilter (state w) = "all" ->
  Str.trim (searchQuery (state w)) = "" ->
  let w' := after (fetchLibrary
                     (Response true (Some (VObject [("materials", catalog M)]))))
                  w in
  recomputed (state w') /\
  filteredMaterials (state w') = map to_value M /\
  materialCount (page w') = Some (List.length M).
Proof.
  intros Hbar Hall Hf Hq w'. subst w'. split.
  - apply (load_recomputed_iff w M b bar Hbar Hall).
    rewrite Hf. now apply filtered_all_blank.
  - unfold after. rewrite (fetchLibrary_catalog w M b bar Hbar Hall).
    cbn [snd state page on_state on_page set_isLoading set_filteredMaterials
             filteredMaterials].
    split; [reflexivity|]. destruct M; reflexivity.
Qed.

Lemma X17_witness :
  recomputed
    (state (after (fetchLibrary (Response true (Some sampleBody)))
                  (initialWorld true false))).
Proof.
  exact (proj1 (X17_load_without_selection_is_recomputed
                  (initialWorld true false) [kayuJati; batuAlam]
                  (mkButton "all" "Semua" true) []
                  eq_refl eq_refl eq_refl eq_refl)).
Defined.

(** ** Upserts, composed *)

Lemma updateMaterial_catalog (w : World) (M : list Material) (p : Material) :
  materials (state w) = catalog M ->
  updateMaterial (Some (to_value p)) w =
  (Ok tt,
   on_page (rendered (Spec.filtered (Spec.upsert p M) (activeFilter (state w))
                                    (searchQuery (state w))))
     (on_state
        (set_filteredMaterials
           (map to_value
                (Spec.filtered (Spec.upsert p M) (activeFilter (state w))
                               (searchQuery (state w)))))
        (on_state (set_materials (catalog (Spec.upsert p M))) w))).
Proof.
  intros HM. unfold updateMaterial, try_catch.
  now rewrite (updateMaterial_body_catalog w M p HM).
Qed.

Lemma upsert_twice (p : Material) (M : list Material) :
  Spec.upsert p (Spec.upsert p M) = Spec.upsert p M.
Proof.
  induction M as [|m M IH]; cbn.
  - now rewrite String.eqb_refl.
  - destruct (id m =? id p) eqn:E; cbn.
    + now rewrite String.eqb_refl.
    + now rewrite E, IH.
Qed.

Lemma find_upsert (p : Material) (M : list Material) :
  find (fun m => id m =? id p) (Spec.upsert p M) = Some p.
Proof.
  induction M as [|m M IH]; cbn.
  - now rewrite String.eqb_refl.
  - destruct (id m =? id p) eqn:E; cbn.
    + now rewrite String.eqb_refl.
    + now rewrite E.
Qed.

Lemma upsert_others (p : Material) (M : list Material) :
  filter (fun m => negb (id m =? id p)) (Spec.upsert p M) =
  filter (fun m => negb (id m =? id p)) M.
Proof.
  induction M as [|m M IH]; cbn.
  - now rewrite String.eqb_refl.
  - destruct (id m =? id p) eqn:E; cbn.
    + now rewrite String.eqb_refl.
    + now rewrite E, IH.
Qed.

Lemma upsert_length (p : Material) (M : list Material) :
  (List.length M <= List.length (Spec.upsert p M) <= S (List.length M))%nat.
Proof.
  induction M as [|m M IH]; cbn; [lia|].
  destruct (id m =? id p); cbn; lia.
Qed.

Lemma upsert_keeps_ids (p : Material) (M : list Material) (i : string) :
  Spec.hasId i M = true -> Spec.hasId i (Spec.upsert p M) = true.
Proof.
  unfold Spec.hasId. induction M as [|m M IH]; cbn; [discriminate|].
  destruct (id m =? id p) eqn:E; cbn.
  - apply String.eqb_eq in E. rewrite <- E.
    destruct (id m =? i); [reflexivity | now rewrite orb_false_l].
  - destruct (id m =? i); [reflexivity|]. cbn. exact IH.
Qed.

(** X18: an upsert is idempotent.  On a well-formed catalog, sending the
    same well-formed payload a second time leaves the world exactly as the
    first time left it. *)
Theorem X18_upsert_idempotent (w : World) (M : list Material) (p : Material) :
  materials (state w) = catalog M ->
  after (updateMaterial (Some (to_value p)))
        (after (updateMaterial (Some (to_value p))) w) =
  after (updateMaterial (Some (to_value p))) w.
Proof.
  intros HM. unfold after.
  rewrite (updateMaterial_catalog w M p HM). cbn [snd].
  rewrite (updateMaterial_catalog _ (Spec.upsert p M) p) by reflexivity.
  cbn [snd]. rewrite upsert_twice.
  destruct w as [s pg h]. unfold on_page, on_state.
  cbn [state page sketchup set_materials set_filteredMaterials
       searchQuery materials filteredMaterials activeFilter isLoading].
  f_equal.
  destruct (Spec.filtered (Spec.upsert p M) (activeFilter s) (searchQuery s));
    destruct pg; reflexivity.
Qed.

Lemma X18_witness :
  after (updateMaterial (Some (to_value jatiBaru)))
        (after (updateMaterial (Some (to_value jatiBaru))) loadedWorld) =
  after (updateMaterial (Some (to_value jatiBaru))) loadedWorld.
Proof.
  exact (X18_upsert_idempotent loadedWorld [kayuJati; batuAlam] jatiBaru
                               eq_refl).
Defined.

(** X19: an upsert touches one id only.  On a well-formed catalog, after
    [updateMaterial] with a well-formed payload [p] the materials with
    another id are the same as before, in the same order; no id that was
    there is lost; the length is the old one or one more; and the first
    material with the id of [p] is [p]. *)
Theorem X19_upsert_touches_one_id (w : World) (M : list Material) (p : Material) :
  materials (state w) = catalog M ->
  exists M',
    materials (state (after (updateMaterial (Some (to_value p))) w)) =
      catalog M' /\
    filter (fun m => negb (id m =? id p)) M' =
      filter (fun m => negb (id m =? id p)) M /\
    (forall i, Spec.hasId i M = true -> Spec.hasId i M' = true) /\
    (List.length M <= List.length M' <= S (List.length M))%nat /\
    find (fun m => id m =? id p) M' = Some p.
Proof.
  intros HM. exists (Spec.upsert p M). unfold after.
  rewrite (updateMaterial_catalog w M p HM). cbn [snd].
  split; [reflexivity|]. split; [apply upsert_others|].
  split; [|split; [apply upsert_length | apply find_upsert]].
  intros i. apply upsert_keeps_ids.
Qed.

Lemma X19_witness :
  exists M',
    materials (state (after (updateMaterial (Some (to_value jatiBaru)))
                            loadedWorld)) = catalog M' /\
    find (fun m => id m =? "a") M' = Some jatiBaru.
Proof.
  destruct (X19_upsert_touches_one_id loadedWorld [kayuJati; batuAlam] jatiBaru
                                      eq_refl)
    as [M' [H1 [_ [_ [_ H2]]]]].
  exists M'. split; [exact H1 | exact H2].
Defined.

(** [applyMaterial] on a well-formed catalog. *)
Lemma applyMaterial_catalog (w : World) (M : list Material) (i : string) :
  materials (state w) = catalog M ->
  applyMaterial (VString i) w =
  match find (fun m => id m =? i) M with
  | None =>
      (Ok tt, on_page (add_toast (mkToast "error" (Text notFoundMessage))) w)
  | Some m =>
      if sketchup w
      then (Ok tt,
            on_page (add_hostCall (to_value m))
              (on_page (add_log (LogInfo "Applying material:" (to_value m))) w))
      else (Ok tt,
            on_page (add_toast (mkToast "success"
                                        (MaterialReady (VString (title m)))))
              (on_page (add_log (LogInfo "Applying material:" (to_value m))) w))
  end.
Proof.
  intros HM. unfold applyMaterial, bind, read, lift. rewrite HM.
  unfold catalog, array_find. rewrite findM_catalog.
  destruct (find (fun m => id m =? i) M) as [m|]; [|reflexivity].
  cbn [option_map truthy to_value negb]. unfold console_log, modify.
  cbn [sketchup on_page]. destruct (sketchup w); reflexivity.
Qed.

(** X20: what was upserted is what gets applied.  On a well-formed
    catalog, applying the id of a payload right after its upsert finds the
    payload itself, never an older material with that id, nor "not found":
    without a host the success notification carries the new title, with a
    host the call carries the new material. *)
Theorem X20_upsert_then_apply (w : World) (M : list Material) (p : Material) :
  materials (state w) = catalog M ->
  let w1 := after (updateMaterial (Some (to_value p))) w in
  let logged := on_page (add_log (LogInfo "Applying material:" (to_value p))) w1 in
  applyMaterial (VString (id p)) w1 =
  (Ok tt,
   if sketchup w
   then on_page (add_hostCall (to_value p)) logged
   else on_page (add_toast (mkToast "success"
                                    (MaterialReady (VString (title p)))))
                logged).
Proof.
  intros HM w1 logged. subst logged w1. unfold after.
  rewrite (updateMaterial_catalog w M p HM). cbn [snd].
  rewrite (applyMaterial_catalog _ (Spec.upsert p M)) by reflexivity.
  rewrite find_upsert. cbn [sketchup on_page on_state].
  destruct (sketchup w); reflexivity.
Qed.

Lemma X20_witness :
  toastContainer
    (page (after (applyMaterial (VString "a"))
                 (after (updateMaterial (Some (to_value jatiBaru)))
                        loadedWorld))) =
  [mkToast "success" (MaterialReady (VString "Kayu Jati Tua"))].
Proof.
  pose proof (X20_upsert_then_apply loadedWorld [kayuJati; batuAlam] jatiBaru
                                    eq_refl) as H.
  cbv zeta in H. unfold after at 1.
  change (VString "a") with (VString (id jatiBaru)).
  rewrite H. reflexivity.
Defined.

(** ** The sync time, formatted *)

(** X21: [formatDate] switches texts at one minute, one hour, one day and
    seven days of age, counted in whole units rounded down.  A date less
    than a minute old, or in the future, reads "Baru saja"; minutes run
    from 1 to 59, hours from 1 to 23, days from 1 to 6; a date seven days
    old or older, or an invalid date, is printed by the locale. *)
Theorem X21_formatDate_thresholds (now d : Z) :
  let age := (now - d)%Z in
  ((age < 60000)%Z -> formatDate now (Some d) = BaruSaja) /\
  ((60000 <= age < 3600000)%Z ->
   formatDate now (Some d) = MenitLalu (age / 60000) /\
   (1 <= age / 60000 <= 59)%Z) /\
  ((3600000 <= age < 86400000)%Z ->
   formatDate now (Some d) = JamLalu (age / 3600000) /\
   (1 <= age / 3600000 <= 23)%Z) /\
  ((86400000 <= age < 604800000)%Z ->
   formatDate now (Some d) = HariLalu (age / 86400000) /\
   (1 <= age / 86400000 <= 6)%Z) /\
  ((604800000 <= age)%Z -> formatDate now (Some d) = LocaleDate (Some d)) /\
  formatDate now None = LocaleDate None.
Proof.
  cbv zeta. unfold formatDate. set (age := (now - d)%Z).
  pose proof (Z.div_mod age 60000 ltac:(lia)) as M1.
  pose proof (Z.mod_pos_bound age 60000 ltac:(lia)) as M2.
  pose proof (Z.div_mod age 3600000 ltac:(lia)) as H1.
  pose proof (Z.mod_pos_bound age 3600000 ltac:(lia)) as H2.
  pose proof (Z.div_mod age 86400000 ltac:(lia)) as D1.
  pose proof (Z.mod_pos_bound age 86400000 ltac:(lia)) as D2.
  split; [|split; [|split; [|split; [|split; [|reflexivity]]]]]; intros Hage;
    repeat match goal with
           | |- context [(?a <? ?b)%Z] => destruct (Z.ltb_spec a b)
           end;
    first [ reflexivity | split; [reflexivity | lia] | exfalso; lia ].
Qed.

Lemma X21_witness : formatDate 7200000 (Some 0%Z) = JamLalu 2.
Proof.
  exact (proj1 (proj1 (proj2 (proj2 (X21_formatDate_thresholds 7200000 0)))
                      ltac:(cbn; lia))).
Defined.

(** ** Debouncing *)

Section DebounceFacts.

Variable A : Type.

Lemma last_default {B} (l : list B) (y x d : B) :
  last (y :: l) x = last (y :: l) d.
Proof.
  revert y. induction l as [|z l IH]; intros y; [reflexivity|].
  change (last (z :: l) x = last (z :: l) d). apply IH.
Qed.

Lemma last_cons {B} (l : list B) (x d : B) : last l x = last (x :: l) d.
Proof.
  destruct l as [|y l]; [reflexivity|].
  change (last (y :: l) x = last (y :: l) d). apply last_default.
Qed.

Lemma run_burst (w : nat) (calls : list (nat * A)) (at_ : nat) (args : A) :
  Debounce.burst w at_ calls ->
  Debounce.run calls (Debounce.mk w (Some (at_ + w, args))) =
  ([], Debounce.mk w (Some (fst (last calls (at_, args)) + w,
                            snd (last calls (at_, args))))).
Proof.
  revert at_ args. induction calls as [|[now a] calls IH]; intros at_ args H.
  - reflexivity.
  - destruct H as (Hle & Hlt & Hrest).
    cbn [Debounce.run]. unfold Debounce.expire, Debounce.due.
    cbn [Debounce.timeout Debounce.wait].
    replace (at_ + w <=? now)%nat with false
      by (symmetry; apply Nat.leb_gt; lia).
    unfold Debounce.call. cbn [Debounce.wait].
    rewrite (IH now a Hrest). cbn [app].
    now rewrite (last_cons calls (now, a) (at_, args)).
Qed.

End DebounceFacts.

Lemma run_spaced {A} (w : nat) (calls : list (nat * A)) (at_ : nat) (args : A) :
  Debounce.spaced w at_ calls ->
  Debounce.run calls (Debounce.mk w (Some (at_ + w, args))) =
  (map snd (removelast ((at_, args) :: calls)),
   Debounce.mk w (Some (fst (last calls (at_, args)) + w,
                        snd (last calls (at_, args))))).
Proof.
  revert at_ args. induction calls as [|[now a] calls IH]; intros at_ args H.
  - reflexivity.
  - destruct H as (Hle & Hrest).
    cbn [Debounce.run]. unfold Debounce.expire, Debounce.due.
    cbn [Debounce.timeout Debounce.wait].
    replace (at_ + w <=? now)%nat with true
      by (symmetry; apply Nat.leb_le; lia).
    unfold Debounce.call. cbn [Debounce.wait].
    rewrite (IH now a Hrest).
    rewrite (last_cons calls (now, a) (at_, args)).
    reflexivity.
Qed.

(** X22: a debounced function coalesces a burst.  Starting with no timer
    pending, calls that each come less than [wait] after the one before
    invoke [func] not once while they last; the one timer left pending is
    due [wait] after the last call and carries the arguments of the last
    call, so [func] then runs once, with those. *)
Theorem X22_debounce_coalesces_burst
        {A} (w now0 : nat) (args0 : A) (calls : list (nat * A)) :
  Debounce.burst w now0 calls ->
  let all := (now0, args0) :: calls in
  let d := snd (Debounce.run all (Debounce.idle w)) in
  fst (Debounce.run all (Debounce.idle w)) = [] /\
  (forall now,
      Debounce.due now d =
      if (fst (last all (now0, args0)) + w <=? now)%nat
      then Some (snd (last all (now0, args0)))
      else None) /\
  (forall now, Debounce.timeout (Debounce.expire now d) = None <->
               (fst (last all (now0, args0)) + w <= now)%nat).
Proof.
  intros Hburst. cbv zeta.
  cbn [Debounce.run Debounce.idle Debounce.due Debounce.timeout Debounce.expire
       Debounce.call Debounce.wait].
  change (Debounce.call now0 args0 (Debounce.idle w))
    with (Debounce.mk w (Some (now0 + w, args0))).
  rewrite (run_burst A w calls now0 args0 Hburst). cbn [fst snd app].
  rewrite <- (last_cons calls (now0, args0) (now0, args0)).
  split; [reflexivity|]. split.
  - intros now. reflexivity.
  - intros now. unfold Debounce.expire, Debounce.due.
    cbn [Debounce.timeout Debounce.wait].
    destruct (Nat.leb_spec (fst (last calls (now0, args0)) + w) now);
      cbn [Debounce.timeout]; split; intros; try reflexivity; try lia;
      discriminate.
Qed.

Lemma X22_witness :
  fst (Debounce.run [(0, "k"); (100, "ka"); (350, "kay")]%nat
                    (Debounce.idle 300)) = [] /\
  Debounce.due 650 (snd (Debounce.run [(0, "k"); (100, "ka"); (350, "kay")]%nat
                                      (Debounce.idle 300))) = Some "kay".
Proof.
  destruct (X22_debounce_coalesces_burst
              300 0 "k" [(100, "ka"); (350, "kay")]%nat
              ltac:(cbn; lia)) as [H1 [H2 _]].
  split; [exact H1 | exact (H2 650%nat)].
Defined.

(** X23: a debounced function loses no call that stands alone.  Starting
    with no timer pending, when each call comes more than [wait] after the
    one before, every call but the last has had [func] run with its
    arguments by the time of the next call, in the order of the calls, and
    the last call is pending. *)
Theorem X23_debounce_keeps_spaced_calls
        {A} (w now0 : nat) (args0 : A) (calls : list (nat * A)) :
  Debounce.spaced w now0 calls ->
  let all := (now0, args0) :: calls in
  Debounce.run all (Debounce.idle w) =
  (map snd (removelast all),
   Debounce.mk w (Some (fst (last all (now0, args0)) + w,
                        snd (last all (now0, args0))))).
Proof.
  intros Hspaced. cbv zeta.
  cbn [Debounce.run Debounce.idle Debounce.due Debounce.timeout Debounce.expire
       Debounce.call Debounce.wait].
  change (Debounce.call now0 args0 (Debounce.idle w))
    with (Debounce.mk w (Some (now0 + w, args0))).
  rewrite (run_spaced w calls now0 args0 Hspaced). cbn [app].
  now rewrite <- (last_cons calls (now0, args0) (now0, args0)).
Qed.

Lemma X23_witness :
  fst (Debounce.run [(0, "k"); (400, "ka"); (1000, "kay")]%nat
                    (Debounce.idle 300)) = ["k"; "ka"].
Proof.
  rewrite (X23_debounce_keeps_spaced_calls
             300 0 "k" [(400, "ka"); (1000, "kay")]%nat ltac:(cbn; lia)).
  reflexivity.
Defined.

(** ** The search box *)

Lemma searchListener_onSearchInput (v : string) (w : World) :
  searchListener (on_page (set_searchInput v) w) = onSearchInput v w.
Proof. reflexivity. Qed.

Lemma keystrokes_burst (events : list (nat * string)) (at_ : nat) (v : string)
      (u : Ui) :
  Debounce.wait (searchTimer u) = 300%nat ->
  Debounce.burst 300 at_ events ->
  keystrokes events (typeText at_ v u) =
  ([], typeText (fst (last events (at_, v))) (snd (last events (at_, v))) u).
Proof.
  intros Hwait. revert at_ v.
  induction events as [|[now v'] events IH]; intros at_ v H.
  - reflexivity.
  - destruct H as (Hle & Hlt & Hrest).
    cbn [keystrokes]. unfold settle, Debounce.due.
    cbn [typeText searchTimer Debounce.call Debounce.timeout].
    rewrite Hwait.
    replace (at_ + 300 <=? now)%nat with false
      by (symmetry; apply Nat.leb_gt; lia).
    cbn [snd app].
    change (typeText now v' (typeText at_ v u)) with (typeText now v' u).
    rewrite (IH now v' Hrest).
    now rewrite (last_cons events (now, v') (at_, v)).
Qed.

Lemma keystrokes_from_idle
      (u : Ui) (now0 : nat) (v0 : string) (events : list (nat * string)) :
  searchTimer u = Debounce.idle 300 ->
  Debounce.burst 300 now0 events ->
  keystrokes ((now0, v0) :: events) u =
  ([], typeText (fst (last ((now0, v0) :: events) (now0, v0)))
                (snd (last ((now0, v0) :: events) (now0, v0))) u).
Proof.
  intros Hidle Hburst.
  assert (Hwait : Debounce.wait (searchTimer u) = 300%nat) by now rewrite Hidle.
  assert (Hsettle : settle now0 u = (Ok tt, u)).
  { unfold settle, Debounce.due. now rewrite Hidle. }
  cbn [keystrokes]. rewrite Hsettle. unfold Debounce.due. rewrite Hidle.
  cbn [Debounce.idle Debounce.timeout snd app].
  rewrite (keystrokes_burst events now0 v0 u Hwait Hburst).
  now rewrite <- (last_cons events (now0, v0) (now0, v0)).
Qed.

(** X24: the search runs once per burst of typing, with the text typed
    last.  With no timer pending, input events that each come less than
    300 ms after the one before run no filtering and leave [state] alone;
    before 300 ms have passed since the last of them the event loop has
    nothing to run; from then on the timer runs once, and what it does is
    the search update with the text the last event left in the box. *)
Theorem X24_typing_searches_once_with_last_text
        (u : Ui) (now0 : nat) (v0 : string) (events : list (nat * string)) :
  searchTimer u = Debounce.idle 300 ->
  Debounce.burst 300 now0 events ->
  let all := (now0, v0) :: events in
  let last_at := fst (last all (now0, v0)) in
  let last_text := snd (last all (now0, v0)) in
  let u1 := snd (keystrokes all u) in
  fst (keystrokes all u) = [] /\
  state (world u1) = state (world u) /\
  searchInput (page (world u1)) = last_text /\
  (forall now, (now < last_at + 300)%nat -> settle now u1 = (Ok tt, u1)) /\
  (forall now, (last_at + 300 <= now)%nat ->
               settle now u1 =
               (fst (onSearchInput last_text (world u)),
                mkUi (after (onSearchInput last_text) (world u))
                     (Debounce.idle 300))).
Proof.
  intros Hidle Hburst. cbv zeta.
  assert (Hwait : Debounce.wait (searchTimer u) = 300%nat) by now rewrite Hidle.
  rewrite (keystrokes_from_idle u now0 v0 events Hidle Hburst).
  set (tl := fst (last ((now0, v0) :: events) (now0, v0))).
  set (vl := snd (last ((now0, v0) :: events) (now0, v0))).
  cbn [fst snd]. split; [reflexivity|]. split; [reflexivity|].
  split; [reflexivity|].
  unfold settle, Debounce.due, Debounce.expire, Debounce.due.
  cbn [typeText searchTimer world Debounce.call Debounce.timeout Debounce.wait].
  rewrite Hwait. split; intros now Hnow.
  - replace (tl + 300 <=? now)%nat with false
      by (symmetry; apply Nat.leb_gt; lia).
    reflexivity.
  - replace (tl + 300 <=? now)%nat with true
      by (symmetry; apply Nat.leb_le; lia).
    rewrite searchListener_onSearchInput. unfold after.
    now destruct (onSearchInput vl (world u)).
Qed.

Lemma X24_witness :
  searchQuery
    (state (world (snd (settle 700
                          (snd (keystrokes [(0, "b"); (200, "ba"); (400, "bat")]%nat
                                           (mkUi loadedWorld (Debounce.idle 300))))))))
  = "bat".
Proof.
  destruct (X24_typing_searches_once_with_last_text
              (mkUi loadedWorld (Debounce.idle 300)) 0 "b"
              [(200, "ba"); (400, "bat")]%nat eq_refl ltac:(cbn; lia))
    as (_ & _ & _ & _ & H).
  rewrite (H 700%nat ltac:(cbn; lia)). reflexivity.
Defined.

Lemma onEscape_catalog (w : World) (M : list Material) :
  materials (state w) = catalog M ->
  onEscape w =
  (Ok tt,
   on_page (rendered (Spec.byTag (activeFilter (state w)) M))
     (on_state
        (set_filteredMaterials
           (map to_value (Spec.byTag (activeFilter (state w)) M)))
        (on_state (set_searchQuery "") (on_page (set_searchInput "") w)))).
Proof.
  intros HM. unfold onEscape, bind, modify.
  now rewrite (applyFilters_catalog _ M) by exact HM.
Qed.

Lemma onSearchInput_catalog (v : string) (w : World) (M : list Material) :
  materials (state w) = catalog M ->
  onSearchInput v w =
  (Ok tt,
   on_page (rendered (Spec.filtered M (activeFilter (state w)) v))
     (on_state
        (set_filteredMaterials
           (map to_value (Spec.filtered M (activeFilter (state w)) v)))
        (on_state (set_searchQuery v) (on_page (set_searchInput v) w)))).
Proof.
  intros HM. unfold onSearchInput, bind, modify.
  now rewrite (applyFilters_catalog _ M) by exact HM.
Qed.

(** X25: Escape undoes a search.  On a well-formed catalog, the Escape key
    after a search update leaves the same world as the Escape key without
    that update: the box and [searchQuery] empty, and [filteredMaterials]
    and the grid back to the tag filter's output. *)
Theorem X25_escape_undoes_search (v : string) (w : World) (M : list Material) :
  materials (state w) = catalog M ->
  after onEscape (after (onSearchInput v) w) = after onEscape w /\
  searchQuery (state (after onEscape w)) = "" /\
  searchInput (page (after onEscape w)) = "" /\
  filteredMaterials (state (after onEscape w)) =
    map to_value (Spec.byTag (activeFilter (state w)) M).
Proof.
  intros HM. unfold after.
  rewrite (onSearchInput_catalog v w M HM). cbn [snd].
  rewrite (onEscape_catalog _ M) by exact HM.
  rewrite (onEscape_catalog w M HM). cbn [snd].
  split.
  - destruct w as [s p h]. unfold on_page, on_state.
    cbn [state page sketchup set_searchQuery set_filteredMaterials
         searchQuery materials filteredMaterials activeFilter isLoading].
    f_equal.
    destruct (Spec.filtered M (activeFilter s) v);
      destruct (Spec.byTag (activeFilter s) M); destruct p; reflexivity.
  - cbn [state page on_state on_page set_filteredMaterials set_searchQuery
         searchQuery filteredMaterials].
    split; [reflexivity|]. split; [|reflexivity].
    destruct (Spec.byTag (activeFilter (state w)) M); reflexivity.
Qed.

Lemma X25_witness :
  after onEscape (after (onSearchInput "jati") kayuSelected) =
  after onEscape kayuSelected.
Proof.
  exact (proj1 (X25_escape_undoes_search "jati" kayuSelected
                                         [kayuJati; batuAlam] eq_refl)).
Defined.

Lemma rendered_searchInput (L : list Material) (p : Page) :
  searchInput (rendered L p) = searchInput p.
Proof. destruct L; reflexivity. Qed.

Lemma rendered_idempotent (L : list Material) (p : Page) :
  rendered L (rendered L p) = rendered L p.
Proof. destruct L, p; reflexivity. Qed.

(** The function of the search timer changes nothing in the world Escape
    leaves. *)
Lemma escape_is_stable (w : World) (M : list Material) :
  materials (state w) = catalog M ->
  searchListener (snd (onEscape w)) = (Ok tt, snd (onEscape w)).
Proof.
  intros HM. rewrite (onEscape_catalog w M HM). cbn [snd].
  unfold searchListener, bind, read, modify.
  rewrite (applyFilters_catalog _ M) by exact HM.
  destruct w as [s p h]. unfold on_page, on_state.
  cbn [state page sketchup set_searchQuery set_filteredMaterials
       searchQuery materials filteredMaterials activeFilter isLoading].
  rewrite rendered_searchInput.
  change (searchInput (set_searchInput "" p)) with "".
  change (Spec.filtered M (activeFilter s) "")
    with (Spec.byTag (activeFilter s) M).
  now rewrite rendered_idempotent.
Qed.

(** X26: Escape is final even while a search timer is pending.  Escape
    does not clear the timer; but the timer's function reads the box when
    it runs, and Escape has emptied the box.  So on a well-formed catalog,
    after typing, then Escape, the timer that runs later returns and
    leaves the world as Escape left it: the typed text does not come back
    into [searchQuery]. *)
Theorem X26_escape_outlives_pending_timer
        (u : Ui) (M : list Material) (at_ now : nat) (v : string) :
  materials (state (world u)) = catalog M ->
  Debounce.wait (searchTimer u) = 300%nat ->
  (at_ + 300 <= now)%nat ->
  let u1 := snd (pressEscape (typeText at_ v u)) in
  Debounce.due now (searchTimer u1) = Some tt /\
  settle now u1 = (Ok tt, mkUi (world u1) (Debounce.idle 300)) /\
  searchQuery (state (world u1)) = "" /\
  searchInput (page (world u1)) = "".
Proof.
  intros HM Hwait Hnow. cbv zeta.
  unfold pressEscape. cbn [typeText world searchTimer].
  rewrite (onEscape_catalog _ M) by exact HM. cbn [snd world searchTimer].
  assert (Hdue : Debounce.due now (Debounce.call at_ tt (searchTimer u)) =
                 Some tt).
  { unfold Debounce.due, Debounce.call. cbn [Debounce.timeout].
    rewrite Hwait.
    now replace (at_ + 300 <=? now)%nat with true
      by (symmetry; apply Nat.leb_le; lia). }
  split; [exact Hdue|]. split.
  - unfold settle. cbn [world searchTimer]. rewrite Hdue.
    unfold Debounce.expire. rewrite Hdue.
    cbn [Debounce.call Debounce.wait]. rewrite Hwait.
    pose proof (escape_is_stable (on_page (set_searchInput v) (world u)) M HM)
      as Hstable.
    rewrite (onEscape_catalog _ M) in Hstable by exact HM.
    cbn [snd] in Hstable. rewrite Hstable. reflexivity.
  - cbn [state page on_state on_page set_filteredMaterials set_searchQuery
         searchQuery].
    split; [reflexivity|].
    destruct (Spec.byTag (activeFilter (state (world u))) M); reflexivity.
Qed.

Lemma X26_witness :
  searchQuery
    (state (world (snd (settle 500
                          (snd (pressEscape
                                  (typeText 100 "jati"
                                            (mkUi loadedWorld
                                                  (Debounce.idle 300))))))))) = "".
Proof.
  destruct (X26_escape_outlives_pending_timer
              (mkUi loadedWorld (Debounce.idle 300)) [kayuJati; batuAlam]
              100 500 "jati" eq_refl eq_refl ltac:(cbn; lia))
    as (_ & H & _ & _).
  rewrite H. reflexivity.
Defined.

(** ** A refresh replaces the catalog *)

(** X27: a successful load replaces the catalog wholesale.  Whatever
    [materials] and [filteredMaterials] held before, be it earlier upserts
    or the leftovers of a failed upsert or load, a load of a well-formed
    catalog [M] on a page with the "all" control leaves [state] with
    exactly [M] in both, [activeFilter] and [searchQuery] as they were and
    [isLoading] false, and draws [M]. *)
Theorem X27_load_replaces_wholesale
        (w : World) (M : list Material)
        (b : FilterButton) (bar : list FilterButton) :
  filtersContainer (page w) = b :: bar ->
  data_filter b = "all" ->
  let w' := after (fetchLibrary
                     (Response true (Some (VObject [("materials", catalog M)]))))
                  w in
  state w' = mkState (catalog M) (map to_value M) (activeFilter (state w))
                     (searchQuery (state w)) false /\
  materialsGrid (page w') =
    match M with [] => GridEmptyState | _ => GridCards (map cardOf M) end /\
  materialCount (page w') = Some (List.length M) /\
  loadingDisplay (page w') = DisplayNone.
Proof.
  intros Hbar Hall w'. subst w'. unfold after.
  rewrite (fetchLibrary_catalog w M b bar Hbar Hall).
  cbn [snd state page on_state on_page].
  split; [reflexivity|]. destruct M; repeat split.
Qed.

Lemma X27_witness :
  materials
    (state (after (fetchLibrary (Response true (Some sampleBody)))
                  (after (updateMaterial (Some bareIdPayload)) loadedWorld))) =
  catalog [kayuJati; batuAlam].
Proof.
  refine (f_equal materials
            (proj1 (X27_load_replaces_wholesale
                      (after (updateMaterial (Some bareIdPayload)) loadedWorld)
                      [kayuJati; batuAlam]
                      (mkButton "all" "Semua" true)
                      [filterButton "kayu"; filterButton "batu"]
                      eq_refl eq_refl))).
Defined.
